(** * My-Book-Library-with-Flask: the request handlers of [app.py]

    A shallow embedding of the Flask application in [src/app.py]: the
    [Book] table, the upload directory and the four handlers
    [book_detail], [add_book], [edit_book] and [delete_book], followed by
    the properties of the book life cycle and of the cover-image upload.

    Conventions of the embedding.
    - A Python [str] is the list of its code points ([pystr]); [bytes] are
      [list byte]; Python integers are [Z].
    - The handlers run in a small state-and-exception monad over the
      [World]: the rows of the [book] table and the regular files on disk.
      A raised exception leaves the world as it was when it was raised:
      rows change only at [commit], files change at [save].
    - The host is a POSIX one: [os.sep = "/"], [os.path.altsep = None],
      [os.name = "posix"], and [os.path.join] is [posixpath.join].
    - What the interpreter's Unicode database decides (NFKD normalisation,
      [int] of a string, [str.lower]) and what the installed version of
      the framework decides (the limits of its form parser besides
      [MAX_CONTENT_LENGTH]) is a [Runtime]; every theorem holds for every
      runtime.
    - The database is SQLite (line 17): an [INTEGER PRIMARY KEY] column
      without AUTOINCREMENT receives one more than the largest rowid in
      the table. A Python integer bound to a statement must lie in the
      signed 64-bit range of SQLite's INTEGER, or the driver raises
      [OverflowError]. Only the ceiling of the rowids the engine itself
      assigns (2^63-1 inserts away) is outside the model.
    - The upload directory exists (lines 169-170) and holds regular files
      only; a file name is at most [NAME_MAX] bytes long. Disk space and
      permissions are outside the model.
    - The text of a request was decoded by the framework, which leaves in
      it no code point that the database cannot store. *)

From Stdlib Require Import ZArith NArith Ascii String List Bool Lia.
From Stdlib Require Import Init.Byte.
From stdpp Require Import base option list sorting gmap.

Local Open Scope Z_scope.

(** ** Python text *)

Definition codepoint := N.
Definition pystr := list codepoint.

Definition chr (a : ascii) : codepoint := N_of_ascii a.

(** A string literal of the source, as code points. *)
Definition str (s : string) : pystr := List.map chr (list_ascii_of_string s).

Definition pystr_eqb (a b : pystr) : bool := bool_decide (a = b).

(** [c in chars] for a one-character [c]. *)
Definition char_in (chars : pystr) (c : codepoint) : bool :=
  List.existsb (N.eqb c) chars.

(** [s.startswith(p)] *)
Fixpoint startswith (p s : pystr) : bool :=
  match p, s with
  | [], _ => true
  | _ :: _, [] => false
  | a :: p', b :: s' => N.eqb a b && startswith p' s'
  end.

(** [s.endswith(p)] *)
Definition endswith (p s : pystr) : bool := startswith (rev p) (rev s).

(** [needle in hay] on strings: some suffix of [hay] starts with [needle]. *)
Fixpoint contains (needle hay : pystr) : bool :=
  startswith needle hay ||
  match hay with
  | [] => false
  | _ :: hay' => contains needle hay'
  end.

(** [s.replace(old, new)] for one-character [old] and [new]. *)
Definition replace_char (old new : codepoint) (s : pystr) : pystr :=
  List.map (fun c => if N.eqb c old then new else c) s.

(** [str.isspace] on the ASCII range: TAB, LF, VT, FF, CR, FS, GS, RS, US
    and the space. *)
Definition is_ascii_space (c : codepoint) : bool :=
  (N.leb 9 c && N.leb c 13) || (N.leb 28 c && N.leb c 32).

(** [s.split()]: the maximal runs of non-blank characters, in order.
    [cur] is the run being read. *)
Fixpoint split_from (cur s : pystr) : list pystr :=
  match s with
  | [] => match cur with [] => [] | _ => [cur] end
  | c :: s' =>
      if is_ascii_space c
      then match cur with
           | [] => split_from [] s'
           | _ => cur :: split_from [] s'
           end
      else split_from (cur ++ [c]) s'
  end.

Definition split (s : pystr) : list pystr := split_from [] s.

(** [sep.join(parts)] *)
Fixpoint join (sep : pystr) (parts : list pystr) : pystr :=
  match parts with
  | [] => []
  | [p] => p
  | p :: rest => p ++ sep ++ join sep rest
  end.

(** [s.lstrip(chars)], [s.rstrip(chars)] and [s.strip(chars)] *)
Fixpoint lstrip (chars s : pystr) : pystr :=
  match s with
  | [] => []
  | c :: s' => if char_in chars c then lstrip chars s' else s
  end.

Definition rstrip (chars s : pystr) : pystr := rev (lstrip chars (rev s)).

Definition strip (chars s : pystr) : pystr := rstrip chars (lstrip chars s).

(** [s.encode("ascii", "ignore").decode("ascii")]: the code points below
    128 survive, the others are dropped. *)
Definition encode_ascii_ignore (s : pystr) : pystr :=
  List.filter (fun c => N.ltb c 128) s.

(** ** Requests *)

Inductive Method := GET | HEAD | POST.

Definition is_POST (m : Method) : bool :=
  match m with POST => true | _ => false end.

(** An uploaded file: werkzeug's [FileStorage]. *)
Record FileStorage := mkFileStorage {
  filename : pystr;
  stream : list byte
}.

(** A [MultiDict]: the fields in the order they were sent; a key may occur
    more than once and [d[key]] is its first value. *)
Definition MultiDict (V : Type) := list (pystr * V).

Record Request := mkRequest {
  method : Method;
  (** the number of bytes of the request body *)
  content_length : Z;
  form : MultiDict pystr;
  files : MultiDict FileStorage
}.

(** ** The services of the interpreter and of the framework *)

Class Runtime := {
  (** [unicodedata.normalize("NFKD", s)] *)
  normalize_NFKD : pystr -> pystr;
  (** [int(s)]: [None] stands for [ValueError]. *)
  py_int : pystr -> option Z;
  (** [s.lower()] *)
  str_lower : pystr -> pystr;
  (** Whether the form parser takes the body of the request. The limits
      it puts on a form besides [MAX_CONTENT_LENGTH] (the bytes of a
      field, the number of parts) are those of the Werkzeug that is
      installed. *)
  form_parser_accepts : Request -> bool
}.

(** ** werkzeug.utils.secure_filename (POSIX host) *)

(** [_filename_ascii_strip_re = re.compile(r"[^A-Za-z0-9_.-]")]: the
    characters the substitution keeps. *)
Definition filename_ascii_keep (c : codepoint) : bool :=
  (N.leb 65 c && N.leb c 90) || (N.leb 97 c && N.leb c 122) ||
  (N.leb 48 c && N.leb c 57) ||
  N.eqb c 95 || N.eqb c 46 || N.eqb c 45.

Definition os_sep : codepoint := chr "/".

Definition secure_filename `{Runtime} (filename : pystr) : pystr :=
  let filename := normalize_NFKD filename in
  let filename := encode_ascii_ignore filename in
  (* for sep in os.sep, os.path.altsep: altsep is None on POSIX *)
  let filename := replace_char os_sep (chr " ") filename in
  let filename :=
    strip (str "._")
      (List.filter filename_ascii_keep (join (str "_") (split filename))) in
  (* os.name == "nt" is false: no device-file prefix *)
  filename.

(** [posixpath.join(a, b)] *)
Definition os_path_join (a b : pystr) : pystr :=
  if startswith [os_sep] b then b
  else if pystr_eqb a [] || endswith [os_sep] a then a ++ b
  else a ++ [os_sep] ++ b.

(** ** The application: configuration (lines 23-30) *)

Definition UPLOAD_FOLDER : pystr := str "static/images/uploads".

Definition ALLOWED_EXTENSIONS : list pystr :=
  [str "png"; str "jpg"; str "jpeg"; str "webp"].

Definition MAX_CONTENT_LENGTH : Z := 20 * 1024 * 1024.

(** [filename.rsplit('.', 1)[1]] when ['.' in filename]: what follows
    the last dot; [None] when there is no dot. *)
Fixpoint rsplit_dot (filename : pystr) : option pystr :=
  match filename with
  | [] => None
  | c :: rest =>
      match rsplit_dot rest with
      | Some ext => Some ext
      | None => if N.eqb c (chr ".") then Some rest else None
      end
  end.

Definition allowed_file `{Runtime} (filename : pystr) : bool :=
  match rsplit_dot filename with
  | Some ext => List.existsb (pystr_eqb (str_lower ext)) ALLOWED_EXTENSIONS
  | None => false
  end.

(** ** The data model (lines 39-45) *)

(** A [Book] object. [id] is [None] on an object that was never flushed
    and the rowid afterwards. *)
Record Book := mkBook {
  id : option Z;
  title : pystr;
  author : pystr;
  year : Z;
  description : pystr;
  cover_image : pystr
}.

Definition set_id (v : option Z) (b : Book) : Book :=
  mkBook v (title b) (author b) (year b) (description b) (cover_image b).
Definition set_title (v : pystr) (b : Book) : Book :=
  mkBook (id b) v (author b) (year b) (description b) (cover_image b).
Definition set_author (v : pystr) (b : Book) : Book :=
  mkBook (id b) (title b) v (year b) (description b) (cover_image b).
Definition set_year (v : Z) (b : Book) : Book :=
  mkBook (id b) (title b) (author b) v (description b) (cover_image b).
Definition set_description (v : pystr) (b : Book) : Book :=
  mkBook (id b) (title b) (author b) (year b) v (cover_image b).
Definition set_cover_image (v : pystr) (b : Book) : Book :=
  mkBook (id b) (title b) (author b) (year b) (description b) v.

(** The column default of [cover_image] (line 45), also the handler's
    starting value (line 74). *)
Definition default_cover : pystr := str "images/default_cover.jpg".

(** ** Responses *)

Inductive URL :=
| url_index
| url_book_detail (book_id : option Z).

Inductive Response :=
| render_template (template : string) (book : option Book)
| redirect (location : URL).

Inductive Exception :=
| BadRequestKeyError (key : pystr)
| RequestEntityTooLarge
| NotFound
| ValueError
| OverflowError
| IsADirectoryError
| OSError.

(** The HTTP status the framework answers with when a handler raises:
    the first three are HTTP exceptions, the others end as a 500. *)
Definition status_code (e : Exception) : Z :=
  match e with
  | BadRequestKeyError _ => 400
  | RequestEntityTooLarge => 413
  | NotFound => 404
  | ValueError | OverflowError | IsADirectoryError | OSError => 500
  end.

(** ** The world and the handler monad *)

Record World := mkWorld {
  (** the rows of table [book], by rowid *)
  table : gmap Z Book;
  (** the regular files, by path *)
  disk : gmap pystr (list byte)
}.

Inductive Outcome (A : Type) :=
| Return (a : A)
| Raise (e : Exception).
Arguments Return {A} a.
Arguments Raise {A} e.

Definition M (A : Type) : Type := World -> Outcome A * World.

#[global] Instance M_ret : MRet M := fun A a w => (Return a, w).

#[global] Instance M_bind : MBind M := fun A B f m w =>
  match m w with
  | (Return a, w') => f a w'
  | (Raise e, w') => (Raise e, w')
  end.

Definition raise {A} (e : Exception) : M A := fun w => (Raise e, w).

(** ** Framework operations *)

Fixpoint MultiDict_get {V} (key : pystr) (d : MultiDict V) : option V :=
  match d with
  | [] => None
  | (k, v) :: d' => if pystr_eqb k key then Some v else MultiDict_get key d'
  end.

(** [key in d] *)
Definition MultiDict_contains {V} (key : pystr) (d : MultiDict V) : bool :=
  match MultiDict_get key d with Some _ => true | None => false end.

(** [d[key]] *)
Definition MultiDict_getitem {V} (key : pystr) (d : MultiDict V) : M V :=
  match MultiDict_get key d with
  | Some v => mret v
  | None => raise (BadRequestKeyError key)
  end.

(** The body is longer than [MAX_CONTENT_LENGTH] (line 26), or the form
    parser does not take it. *)
Definition body_refused `{Runtime} (request : Request) : bool :=
  Z.ltb MAX_CONTENT_LENGTH (content_length request) ||
  negb (form_parser_accepts request).

(** The first use of [request.form] or [request.files] parses the body;
    a body that is refused is answered 413. *)
Definition load_form_data `{Runtime} (request : Request) : M unit :=
  if body_refused request
  then raise RequestEntityTooLarge
  else mret tt.

Definition request_form `{Runtime} (request : Request)
    : M (MultiDict pystr) :=
  load_form_data request ;; mret (form request).

Definition request_files `{Runtime} (request : Request)
    : M (MultiDict FileStorage) :=
  load_form_data request ;; mret (files request).

(** [int(s)] *)
Definition int `{Runtime} (s : pystr) : M Z :=
  match py_int s with
  | Some z => mret z
  | None => raise ValueError
  end.

(** The longest file name the file system takes, in bytes. *)
Definition NAME_MAX : N := 255.

(** The bytes of a code point in the file-system encoding, UTF-8. *)
Definition utf8_length (c : codepoint) : N :=
  if (c <? 128)%N then 1
  else if (c <? 2048)%N then 2
  else if (c <? 65536)%N then 3
  else 4.

(** No component of the path is longer than [NAME_MAX] bytes; [len] is
    the length of the component being read. *)
Fixpoint components_fit (len : N) (path : pystr) : bool :=
  match path with
  | [] => (len <=? NAME_MAX)%N
  | c :: rest =>
      if N.eqb c os_sep
      then (len <=? NAME_MAX)%N && components_fit 0 rest
      else components_fit (len + utf8_length c) rest
  end.

(** [uploaded_file.save(dst)]: [open(dst, "wb")] and a copy of the stream.
    A component that is too long makes [open] raise [OSError] (file name
    too long); a destination that is empty or ends with the separator
    names no regular file. An existing file of that name is replaced. *)
Definition FileStorage_save (f : FileStorage) (dst : pystr) : M unit :=
  fun w =>
    if negb (components_fit 0 dst)
    then (Raise OSError, w)
    else if pystr_eqb dst [] || endswith [os_sep] dst
    then (Raise IsADirectoryError, w)
    else (Return tt, mkWorld (table w) (<[dst := stream f]> (disk w))).

(** A Python integer the driver can bind to a statement: a signed
    64-bit value. *)
Definition fits_INTEGER (z : Z) : bool :=
  Z.leb (- 2 ^ 63) z && Z.ltb z (2 ^ 63).

(** [Book.query.get_or_404(book_id)]: the row stored under the id;
    without one, [NotFound] when the id could be bound to the query and
    [OverflowError] when it could not. No row is stored under an id that
    cannot be bound. *)
Definition get_or_404 (book_id : Z) : M Book :=
  fun w =>
    match table w !! book_id with
    | Some b => (Return b, w)
    | None =>
        if fits_INTEGER book_id
        then (Raise NotFound, w)
        else (Raise OverflowError, w)
    end.

(** The largest rowid in use, 0 for the empty table; the next row
    receives one more. The rowids of the table are positive: the engine
    assigns them all, no statement of the application names one. *)
Definition max_rowid (t : gmap Z Book) : Z :=
  map_fold (fun k _ acc => Z.max k acc) 0 t.

Definition next_rowid (t : gmap Z Book) : Z := max_rowid t + 1.

(** What the session holds when [commit] is called: the object given to
    [db.session.add], a loaded object whose attributes were assigned, or
    the object given to [db.session.delete]. *)
Inductive UnitOfWork :=
| db_session_add (b : Book)
| db_session_dirty (b : Book)
| db_session_delete (b : Book).

(** [db.session.commit()]: the INSERT, UPDATE or DELETE of the unit of
    work, in one transaction. The year is bound to the INSERT and to the
    UPDATE: outside the INTEGER range the statement raises and the
    transaction writes nothing. *)
Definition db_session_commit (u : UnitOfWork) : M unit :=
  fun w =>
    match u with
    | db_session_add b =>
        if fits_INTEGER (year b)
        then let i := next_rowid (table w) in
             (Return tt,
              mkWorld (<[i := set_id (Some i) b]> (table w)) (disk w))
        else (Raise OverflowError, w)
    | db_session_dirty b =>
        if fits_INTEGER (year b)
        then match id b with
             | Some i => (Return tt, mkWorld (<[i := b]> (table w)) (disk w))
             | None => (Return tt, w)
             end
        else (Raise OverflowError, w)
    | db_session_delete b =>
        match id b with
        | Some i => (Return tt, mkWorld (delete i (table w)) (disk w))
        | None => (Return tt, w)
        end
    end.

(** ** The handlers *)

Section Handlers.
Context `{Runtime}.

(** lines 63-68 *)
Definition book_detail (book_id : Z) : M Response :=
  book ← get_or_404 book_id;
  mret (render_template "book_detail.html" (Some book)).

(** lines 71-107 *)
Definition add_book (request : Request) : M Response :=
  if is_POST (method request) then
    let cover_path := default_cover in
    request_files_ ← request_files request;
    cover_path ←
      (if MultiDict_contains (str "cover_image") request_files_ then
         uploaded_file ← MultiDict_getitem (str "cover_image") request_files_;
         if negb (pystr_eqb (filename uploaded_file) []) then
           let filename_ := secure_filename (filename uploaded_file) in
           let save_path := os_path_join UPLOAD_FOLDER filename_ in
           FileStorage_save uploaded_file save_path ;;
           mret (str "images/uploads/" ++ filename_)
         else mret cover_path
       else mret cover_path);
    request_form_ ← request_form request;
    title_ ← MultiDict_getitem (str "title") request_form_;
    author_ ← MultiDict_getitem (str "author") request_form_;
    year_ ← MultiDict_getitem (str "year") request_form_ ≫= int;
    description_ ← MultiDict_getitem (str "description") request_form_;
    let new_book := mkBook None title_ author_ year_ description_ cover_path in
    db_session_commit (db_session_add new_book) ;;
    mret (redirect url_index)
  else mret (render_template "add_book.html" None).

(** lines 111-145 *)
Definition edit_book (request : Request) (book_id : Z) : M Response :=
  book_to_update ← get_or_404 book_id;
  if is_POST (method request) then
    request_form_ ← request_form request;
    title_ ← MultiDict_getitem (str "title") request_form_;
    let book_to_update := set_title title_ book_to_update in
    author_ ← MultiDict_getitem (str "author") request_form_;
    let book_to_update := set_author author_ book_to_update in
    year_ ← MultiDict_getitem (str "year") request_form_ ≫= int;
    let book_to_update := set_year year_ book_to_update in
    description_ ← MultiDict_getitem (str "description") request_form_;
    let book_to_update := set_description description_ book_to_update in
    request_files_ ← request_files request;
    book_to_update ←
      (if MultiDict_contains (str "cover_image") request_files_ then
         uploaded_file ← MultiDict_getitem (str "cover_image") request_files_;
         if negb (pystr_eqb (filename uploaded_file) []) then
           let filename_ := secure_filename (filename uploaded_file) in
           let save_path := os_path_join UPLOAD_FOLDER filename_ in
           FileStorage_save uploaded_file save_path ;;
           mret (set_cover_image (str "images/uploads/" ++ filename_)
                   book_to_update)
         else mret book_to_update
       else mret book_to_update);
    db_session_commit (db_session_dirty book_to_update) ;;
    mret (redirect (url_book_detail (id book_to_update)))
  else mret (render_template "edit_book.html" (Some book_to_update)).

(** lines 148-157; the route accepts POST only. *)
Definition delete_book (book_id : Z) : M Response :=
  book_to_delete ← get_or_404 book_id;
  db_session_commit (db_session_delete book_to_delete) ;;
  mret (redirect url_index).

End Handlers.

(** ** Vocabulary of the statements *)

(** The upload the handlers act on (lines 77-81 and 124-128): the first
    file sent under [cover_image], unless there is none or its name is
    empty. *)
Definition cover_upload (request : Request) : option FileStorage :=
  match MultiDict_get (str "cover_image") (files request) with
  | Some f => if pystr_eqb (filename f) [] then None else Some f
  | None => None
  end.

(** Where the handlers save an upload (lines 83-86) and the reference
    they store for it (line 92). *)
Definition upload_path `{Runtime} (f : FileStorage) : pystr :=
  os_path_join UPLOAD_FOLDER (secure_filename (filename f)).

Definition upload_reference `{Runtime} (f : FileStorage) : pystr :=
  str "images/uploads/" ++ secure_filename (filename f).

(** The cover reference a request resolves to. *)
Definition resolved_cover `{Runtime} (request : Request) : pystr :=
  match cover_upload request with
  | Some f => upload_reference f
  | None => default_cover
  end.

(** A name [save] can open a file under: not empty, and no longer than
    the file system takes. *)
Definition name_storable (name : pystr) : bool :=
  negb (pystr_eqb name []) && (N.of_nat (length name) <=? NAME_MAX)%N.

(** The upload of the request, if any, has a sanitised name that [save]
    can open a file under. *)
Definition upload_storable `{Runtime} (request : Request) : bool :=
  match cover_upload request with
  | Some f => name_storable (secure_filename (filename f))
  | None => true
  end.

(** What [save] raises for an upload, if anything. *)
Definition upload_error `{Runtime} (f : FileStorage) : option Exception :=
  if pystr_eqb (secure_filename (filename f)) [] then Some IsADirectoryError
  else if (N.of_nat (length (secure_filename (filename f))) <=? NAME_MAX)%N
  then None
  else Some OSError.

(** Every uploaded file is part of the request body. *)
Definition uploads_within_body (request : Request) : Prop :=
  Forall (fun kf => Z.of_nat (length (stream (snd kf))) <= content_length request)
         (files request).

(** A sanitised name: only characters of [A-Za-z0-9_.-], and neither end
    is a dot or an underscore. *)
Definition sanitised (name : pystr) : bool :=
  List.forallb filename_ascii_keep name &&
  negb (char_in (str "._") (List.hd 0%N name)) &&
  negb (char_in (str "._") (List.last name 0%N)).

(** One path component that names an entry: not empty, no separator, and
    neither [.] nor [..]. *)
Definition plain_component (name : pystr) : bool :=
  negb (pystr_eqb name []) &&
  negb (char_in name os_sep) &&
  negb (pystr_eqb name (str ".")) &&
  negb (pystr_eqb name (str "..")).

(** [s[len(p):]] when [s] starts with [p] *)
Fixpoint removeprefix (p s : pystr) : option pystr :=
  match p, s with
  | [], _ => Some s
  | _ :: _, [] => None
  | a :: p', b :: s' => if N.eqb a b then removeprefix p' s' else None
  end.

(** The path is an entry of the upload directory itself. *)
Definition inside_uploads (path : pystr) : bool :=
  match removeprefix (UPLOAD_FOLDER ++ [os_sep]) path with
  | Some name => plain_component name
  | None => false
  end.

(** Every row carries the rowid it is stored under. *)
Definition rows_keyed (t : gmap Z Book) : Prop :=
  forall i b, t !! i = Some b -> id b = Some i.

(** The four scalars of the form in the order the handlers read them
    (lines 96-99 and 117-120), or the exception of the first one that
    fails. *)
Definition scalars `{Runtime} (request : Request)
    : Exception + (pystr * pystr * Z * pystr) :=
  match MultiDict_get (str "title") (form request) with
  | None => inl (BadRequestKeyError (str "title"))
  | Some t =>
  match MultiDict_get (str "author") (form request) with
  | None => inl (BadRequestKeyError (str "author"))
  | Some a =>
  match MultiDict_get (str "year") (form request) with
  | None => inl (BadRequestKeyError (str "year"))
  | Some ys =>
  match py_int ys with
  | None => inl ValueError
  | Some y =>
  match MultiDict_get (str "description") (form request) with
  | None => inl (BadRequestKeyError (str "description"))
  | Some d => inr (t, a, y, d)
  end end end end end.

(** [add_book] on a POST whose body was parsed, once the cover
    is resolved: the scalars are read and the row is inserted. *)
Definition create_with `{Runtime} (request : Request) (cover : pystr)
    (w : World)
    : Outcome Response * World :=
  match scalars request with
  | inl e => (Raise e, w)
  | inr (t, a, y, d) =>
      if fits_INTEGER y
      then (Return (redirect url_index),
            mkWorld (<[next_rowid (table w) :=
                        mkBook (Some (next_rowid (table w))) t a y d cover]>
                       (table w))
                    (disk w))
      else (Raise OverflowError, w)
  end.

(** [edit_book] on a POST for the loaded row [b], once the scalars are
    read: [b'] is the object to flush. *)
Definition update_row (b' : Book) (w : World) : Outcome Response * World :=
  if fits_INTEGER (year b')
  then (Return (redirect (url_book_detail (id b'))),
        match id b' with
        | Some i => mkWorld (<[i := b']> (table w)) (disk w)
        | None => w
        end)
  else (Raise OverflowError, w).

(** The two ways the scalars of a form are rejected. *)
Definition required_fields : list pystr :=
  [str "title"; str "author"; str "year"; str "description"].

Definition field_missing (request : Request) : Prop :=
  exists key, In key required_fields /\ MultiDict_get key (form request) = None.

Definition year_not_integer `{Runtime} (request : Request) : Prop :=
  exists ys, MultiDict_get (str "year") (form request) = Some ys /\
             py_int ys = None.

(** The exceptions a rejected form raises. *)
Definition validation_error (e : Exception) : Prop :=
  e = ValueError \/ exists key, e = BadRequestKeyError key.

(** The requests that change the store, and a run of them: each handler
    starts in the world the previous one left. *)
Inductive Operation :=
| Create (request : Request)
| Update (request : Request) (book_id : Z)
| Delete (book_id : Z).

Definition perform `{Runtime} (w : World) (op : Operation) : World :=
  match op with
  | Create request => (add_book request w).2
  | Update request book_id => (edit_book request book_id w).2
  | Delete book_id => (delete_book book_id w).2
  end.

Definition run `{Runtime} (ops : list Operation) (w : World) : World :=
  fold_left perform ops w.

(** ** A runtime for ASCII text

    On strings of ASCII characters NFKD normalisation changes nothing,
    [int] reads an optionally signed decimal literal between blanks (TAB,
    LF, VT, FF, CR and the space), with single underscores allowed
    between digits and no more digits than the interpreter converts, and
    [lower] maps [A-Z] to [a-z]. The form parser is the one of
    Werkzeug 3.1, which takes no form field over [max_form_memory_size]
    bytes. The examples below run the handlers on ASCII requests with
    it. *)

Definition is_ascii_digit (c : codepoint) : bool := N.leb 48 c && N.leb c 57.

Fixpoint decimal_digits (acc : Z) (after_digit : bool) (s : pystr) : option Z :=
  match s with
  | [] => if after_digit then Some acc else None
  | c :: s' =>
      if is_ascii_digit c
      then decimal_digits (10 * acc + (Z.of_N c - 48)) true s'
      else if N.eqb c (chr "_") && after_digit
           then decimal_digits acc false s'
           else None
  end.

Definition ascii_whitespace : pystr := [9; 10; 11; 12; 13; 32]%N.

(** [sys.int_info.default_max_str_digits]: a literal of more digits is a
    [ValueError]. *)
Definition int_max_str_digits : nat := 4300.

Definition ascii_int (s : pystr) : option Z :=
  let s := strip ascii_whitespace s in
  if Nat.ltb int_max_str_digits (length (List.filter is_ascii_digit s))
  then None
  else
    match s with
    | [] => None
    | c :: s' =>
        if N.eqb c (chr "-") then Z.opp <$> decimal_digits 0 false s'
        else if N.eqb c (chr "+") then decimal_digits 0 false s'
        else decimal_digits 0 false (c :: s')
    end.

Definition ascii_lower (s : pystr) : pystr :=
  List.map (fun c => if N.leb 65 c && N.leb c 90 then (c + 32)%N else c) s.

(** [max_form_memory_size] as Werkzeug 3.1 sets it: a form field of more
    bytes is refused. *)
Definition max_form_memory_size : N := 500000.

Definition byte_length (s : pystr) : N :=
  fold_right (fun c n => (utf8_length c + n)%N) 0%N s.

Definition fields_within_memory (request : Request) : bool :=
  List.forallb (fun kv => (byte_length (snd kv) <=? max_form_memory_size)%N)
               (form request).

Definition ascii_runtime : Runtime :=
  {| normalize_NFKD := fun s => s;
     py_int := ascii_int;
     str_lower := ascii_lower;
     form_parser_accepts := fields_within_memory |}.

(** ** Sample requests *)

Definition empty_world : World := mkWorld ∅ ∅.

Definition dune_form : MultiDict pystr :=
  [(str "title", str "Dune"); (str "author", str "Frank Herbert");
   (str "year", str "1965"); (str "description", str "desc")].

Definition emma_form : MultiDict pystr :=
  [(str "title", str "Emma"); (str "author", str "Jane Austen");
   (str "year", str "1815"); (str "description", str "a novel")].

(** the year is one more than the largest 64-bit integer *)
Definition far_future_form : MultiDict pystr :=
  [(str "title", str "Dune"); (str "author", str "Frank Herbert");
   (str "year", str "9223372036854775808"); (str "description", str "desc")].

(** the year is not a number *)
Definition undated_form : MultiDict pystr :=
  [(str "title", str "Dune"); (str "author", str "Frank Herbert");
   (str "year", str "unknown"); (str "description", str "desc")].

Definition jpeg_bytes : list byte := [xff; xd8; xff; xe0].

Definition post (frm : MultiDict pystr) (fls : MultiDict FileStorage) : Request :=
  mkRequest POST 1024 frm fls.

Definition upload (name : string) : MultiDict FileStorage :=
  [(str "cover_image", mkFileStorage (str name) jpeg_bytes)].

(** the browser's empty file field *)
Definition no_file_selected : MultiDict FileStorage :=
  [(str "cover_image", mkFileStorage [] [])].

Definition dune : Book :=
  mkBook (Some 1) (str "Dune") (str "Frank Herbert") 1965 (str "desc")
         default_cover.

Definition dune_world : World := mkWorld {[ 1 := dune ]} ∅.

Definition emma : Book :=
  mkBook (Some 1) (str "Emma") (str "Jane Austen") 1815 (str "a novel")
         default_cover.

(** a file of one byte more than the limit, in a body that holds it *)
Definition big_file : FileStorage :=
  mkFileStorage (str "big.jpg")
                (List.repeat x00 (Z.to_nat (MAX_CONTENT_LENGTH + 1))).

Definition big_post : Request :=
  mkRequest POST (MAX_CONTENT_LENGTH + 4096) dune_form
            [(str "cover_image", big_file)].

(** a title of one byte more than [max_form_memory_size], in a body far
    below [MAX_CONTENT_LENGTH] *)
Definition long_title_post : Request :=
  mkRequest POST 600000
    [(str "title", List.repeat (chr "a") (Z.to_nat 500001));
     (str "author", str "Frank Herbert"); (str "year", str "1965");
     (str "description", str "desc")]
    [].

(** ** The other views and the routing *)

(** [Book.__repr__] (lines 48-49) *)
Definition Book_repr (b : Book) : pystr := str "<Book " ++ title b ++ str ">".

(** Rows by increasing rowid. *)
Definition rowid_le (a b : Z * Book) : Prop := a.1 <= b.1.

#[global] Instance rowid_le_dec : RelDecision rowid_le :=
  fun a b => decide (a.1 <= b.1).

(** [Book.query.all()]: every row of the table. SQLite scans the table
    in rowid order. *)
Definition Book_query_all : M (list Book) :=
  fun w => (Return (merge_sort rowid_le (map_to_list (table w))).*2, w).

(** lines 55-60: the books handed to [index.html] *)
Definition index : M (list Book) :=
  all_books ← Book_query_all;
  mret all_books.

(** lines 160-162: the page and the status of the 404 handler *)
Definition page_not_found : Response * Z :=
  (render_template "404.html" None, 404).

(** The URL rules of the five [@app.route] decorators; [<int:book_id>]
    matches the non-negative integers. *)
Inductive Route :=
| route_index
| route_book_detail (book_id : N)
| route_add_book
| route_edit_book (book_id : N)
| route_delete_book (book_id : N).

(** The methods of each rule: GET (and with it HEAD) unless [methods]
    says otherwise (lines 71, 111 and 148). *)
Definition route_allows (route : Route) (m : Method) : bool :=
  match route, m with
  | (route_index | route_book_detail _), POST => false
  | route_delete_book _, (GET | HEAD) => false
  | _, _ => true
  end.

(** What the client is sent: the answer of a view, the book list of
    [index.html], or the page the framework writes for an error status. *)
Inductive Page :=
| view_page (r : Response)
| index_page (books : list Book)
| error_page.

Definition response_page (r : Response) : Z * Page :=
  (match r with render_template _ _ => 200 | redirect _ => 302 end,
   view_page r).

(** The outcome of a view as a status and a page: [NotFound] goes to
    the registered handler, every other exception to the framework. *)
Definition respond {A} (page_of : A -> Z * Page)
    (result : Outcome A * World) : (Z * Page) * World :=
  match result with
  | (Return a, w) => (page_of a, w)
  | (Raise NotFound, w) => ((page_not_found.2, view_page page_not_found.1), w)
  | (Raise e, w) => ((status_code e, error_page), w)
  end.

(** One request from the rule it matched to the answer. A method the
    rule does not list is answered 405 without calling the view. *)
Definition dispatch_request `{Runtime} (route : Route) (request : Request)
    (w : World) : (Z * Page) * World :=
  if negb (route_allows route (method request)) then ((405, error_page), w)
  else match route with
       | route_index =>
           respond (fun books => (200, index_page books)) (index w)
       | route_book_detail book_id =>
           respond response_page (book_detail (Z.of_N book_id) w)
       | route_add_book =>
           respond response_page (add_book request w)
       | route_edit_book book_id =>
           respond response_page (edit_book request (Z.of_N book_id) w)
       | route_delete_book book_id =>
           respond response_page (delete_book (Z.of_N book_id) w)
       end.

(** The cover of a row is the default one, or the reference of a
    sanitised name whose file is in the upload directory. *)
Definition cover_on_disk (w : World) (b : Book) : Prop :=
  cover_image b = default_cover \/
  exists name,
    name <> [] /\ sanitised name = true /\
    cover_image b = str "images/uploads/" ++ name /\
    is_Some (disk w !! (UPLOAD_FOLDER ++ [os_sep] ++ name)).

Definition covers_on_disk (w : World) : Prop :=
  forall i b, table w !! i = Some b -> cover_on_disk w b.

(** The rows are keyed by ids from 1 to [n]. *)
Definition ids_up_to (n : Z) (t : gmap Z Book) : Prop :=
  rows_keyed t /\ (forall i, is_Some (t !! i) -> 1 <= i) /\ max_rowid t <= n.

(** a page is asked for *)
Definition get : Request := mkRequest GET 0 [] [].

(** Dune and Emma are created, Dune is deleted *)
Definition two_created_one_deleted : list Operation :=
  [Create (post dune_form []); Create (post emma_form []); Delete 1].

(** a second cover under the name of the first, with other bytes *)
Definition png_bytes : list byte := [x89; x50; x4e; x47].

Definition upload_png (name : string) : MultiDict FileStorage :=
  [(str "cover_image", mkFileStorage (str name) png_bytes)].

(** * Properties *)

(** ** Text *)

Lemma pystr_eqb_true (a b : pystr) : pystr_eqb a b = true <-> a = b.
Proof. unfold pystr_eqb. apply bool_decide_eq_true. Qed.

Lemma pystr_eqb_false (a b : pystr) : pystr_eqb a b = false <-> a <> b.
Proof. unfold pystr_eqb. apply bool_decide_eq_false. Qed.

Lemma lstrip_is_suffix (chars s : pystr) :
  exists dropped, s = dropped ++ lstrip chars s.
Proof.
  induction s as [|c s [d IH]]; simpl.
  - by exists [].
  - destruct (char_in chars c).
    + exists (c :: d). simpl. by f_equal.
    + by exists [].
Qed.

Lemma lstrip_head (chars s : pystr) (c : codepoint) (rest : pystr) :
  lstrip chars s = c :: rest -> char_in chars c = false.
Proof.
  induction s as [|a s IH]; simpl; [done|].
  destruct (char_in chars a) eqn:E; [done|].
  intros [= -> _]. exact E.
Qed.

Lemma rstrip_is_prefix (chars s : pystr) :
  exists dropped, s = rstrip chars s ++ dropped.
Proof.
  unfold rstrip. destruct (lstrip_is_suffix chars (rev s)) as [d Hd].
  exists (rev d). rewrite <- rev_app_distr, <- Hd. by rewrite rev_involutive.
Qed.

Lemma rstrip_last (chars s : pystr) (c : codepoint) (front : pystr) :
  rstrip chars s = front ++ [c] -> char_in chars c = false.
Proof.
  unfold rstrip. intros Heq.
  apply (f_equal (@rev codepoint)) in Heq.
  rewrite rev_involutive, rev_app_distr in Heq. simpl in Heq.
  by eapply lstrip_head.
Qed.

(** Whatever is stripped, what remains starts and ends outside [chars]. *)
Lemma strip_ends (chars s : pystr) :
  char_in chars 0%N = false ->
  char_in chars (List.hd 0%N (strip chars s)) = false /\
  char_in chars (List.last (strip chars s) 0%N) = false.
Proof.
  intros H0. unfold strip. split.
  - destruct (rstrip_is_prefix chars (lstrip chars s)) as [d Hd].
    destruct (rstrip chars (lstrip chars s)) as [|c r] eqn:E; [done|].
    simpl in *. by eapply lstrip_head.
  - destruct (rstrip chars (lstrip chars s)) as [|c r] eqn:E using rev_ind;
      [done|].
    rewrite last_last. by eapply rstrip_last.
Qed.

Lemma forallb_strip (keep : codepoint -> bool) (chars s : pystr) :
  List.forallb keep s = true -> List.forallb keep (strip chars s) = true.
Proof.
  rewrite !List.forallb_forall. intros Hs c Hc. apply Hs.
  unfold strip in Hc.
  destruct (rstrip_is_prefix chars (lstrip chars s)) as [d1 H1].
  destruct (lstrip_is_suffix chars s) as [d2 H2].
  rewrite H2, H1. apply in_or_app. right. apply in_or_app. by left.
Qed.

Lemma forallb_filter_id {A} (keep : A -> bool) (l : list A) :
  List.forallb keep (List.filter keep l) = true.
Proof.
  apply List.forallb_forall. intros x Hx.
  by apply List.filter_In in Hx as [_ ?].
Qed.

Lemma removeprefix_app (p s : pystr) : removeprefix p (p ++ s) = Some s.
Proof.
  induction p as [|a p IH]; simpl; [by destruct s|].
  by rewrite N.eqb_refl.
Qed.

(** ** secure_filename *)

Section SecureFilename.
Context `{Runtime}.

(** The name [secure_filename] returns is a sanitised one, whatever the
    name it was given and whatever normalisation did to it. *)
Lemma secure_filename_sanitised (name : pystr) :
  sanitised (secure_filename name) = true.
Proof.
  unfold secure_filename, sanitised.
  set (kept := List.filter filename_ascii_keep _).
  destruct (strip_ends (str "._") kept) as [Hh Hl]; [done|].
  rewrite Hh, Hl, forallb_strip; [done|].
  apply forallb_filter_id.
Qed.

End SecureFilename.

Lemma sanitised_no_separator (name : pystr) :
  sanitised name = true -> char_in name os_sep = false.
Proof.
  unfold sanitised. intros Hs.
  apply andb_prop in Hs as [Hs _]. apply andb_prop in Hs as [Hk _].
  apply not_true_is_false. intros Hin.
  apply List.existsb_exists in Hin as (c & Hc & Heq).
  apply N.eqb_eq in Heq. subst c.
  rewrite List.forallb_forall in Hk. by specialize (Hk _ Hc).
Qed.

Lemma sanitised_plain (name : pystr) :
  sanitised name = true -> name <> [] -> plain_component name = true.
Proof.
  intros Hs Hne. unfold plain_component.
  rewrite (sanitised_no_separator _ Hs).
  apply pystr_eqb_false in Hne. rewrite Hne. simpl.
  unfold sanitised in Hs.
  apply andb_prop in Hs as [Hs _]. apply andb_prop in Hs as [_ Hh].
  destruct name as [|c rest]; [done|]. simpl in Hh.
  destruct (pystr_eqb (c :: rest) (str ".")) eqn:E1.
  { apply pystr_eqb_true in E1. injection E1 as -> _. done. }
  destruct (pystr_eqb (c :: rest) (str "..")) eqn:E2.
  { apply pystr_eqb_true in E2. injection E2 as -> _. done. }
  done.
Qed.

Lemma os_path_join_sanitised (name : pystr) :
  sanitised name = true -> name <> [] ->
  os_path_join UPLOAD_FOLDER name = UPLOAD_FOLDER ++ [os_sep] ++ name.
Proof.
  intros Hs Hne. unfold os_path_join.
  destruct name as [|c rest]; [done|].
  pose proof (sanitised_no_separator _ Hs) as Hsep.
  unfold char_in in Hsep. cbn [List.existsb] in Hsep.
  apply orb_false_elim in Hsep as [Hc _].
  cbn [startswith]. rewrite Hc. reflexivity.
Qed.

Lemma upload_inside (name : pystr) :
  sanitised name = true -> name <> [] ->
  inside_uploads (os_path_join UPLOAD_FOLDER name) = true.
Proof.
  intros Hs Hne. rewrite os_path_join_sanitised by done.
  unfold inside_uploads. rewrite app_assoc, removeprefix_app.
  by apply sanitised_plain.
Qed.

(** ** The table *)

Lemma max_rowid_upper (t : gmap Z Book) (j : Z) :
  is_Some (t !! j) -> j <= max_rowid t.
Proof.
  unfold max_rowid. revert j.
  apply (map_fold_weak_ind
           (fun acc (m : gmap Z Book) => forall j, is_Some (m !! j) -> j <= acc)).
  - intros j [b Hb]. by rewrite lookup_empty in Hb.
  - intros i b m acc Hnone IH j Hj.
    destruct (decide (i = j)) as [->|Hne]; [lia|].
    rewrite lookup_insert_ne in Hj by done. specialize (IH j Hj). lia.
Qed.

Lemma next_rowid_above (t : gmap Z Book) (j : Z) :
  is_Some (t !! j) -> j < next_rowid t.
Proof. intros Hj. apply max_rowid_upper in Hj. unfold next_rowid. lia. Qed.

Lemma next_rowid_fresh (t : gmap Z Book) : t !! next_rowid t = None.
Proof.
  destruct (t !! next_rowid t) as [b|] eqn:E; [|done].
  assert (next_rowid t < next_rowid t) by (apply next_rowid_above; eauto).
  lia.
Qed.

Lemma max_rowid_insert (t : gmap Z Book) (i : Z) (b : Book) :
  t !! i = None -> max_rowid (<[i := b]> t) = Z.max i (max_rowid t).
Proof.
  intros Hi. unfold max_rowid.
  rewrite (map_fold_insert_L (fun k (_ : Book) acc => Z.max k acc)); [done| |done].
  intros. lia.
Qed.

Lemma max_rowid_nonneg (t : gmap Z Book) : 0 <= max_rowid t.
Proof.
  unfold max_rowid.
  apply (map_fold_weak_ind (fun acc (_ : gmap Z Book) => 0 <= acc)); [done|].
  intros. lia.
Qed.

(** The largest rowid in use is one of the rowids, 0 apart. *)
Lemma max_rowid_stored (t : gmap Z Book) :
  max_rowid t = 0 \/ is_Some (t !! max_rowid t).
Proof.
  unfold max_rowid.
  apply (map_fold_weak_ind
           (fun acc (m : gmap Z Book) => acc = 0 \/ is_Some (m !! acc))).
  - by left.
  - intros i b m acc Hnone IH.
    destruct (Z.max_spec i acc) as [[Hlt ->]|[Hle ->]].
    + destruct IH as [->|IH]; [by left|right].
      apply lookup_insert_is_Some'. by right.
    + right. rewrite lookup_insert_eq. by eexists.
Qed.

(** What the next rowid is: at least 1, above every rowid in use, and
    just above one of them unless it is 1. *)
Lemma next_rowid_spec (t : gmap Z Book) :
  1 <= next_rowid t /\
  (forall j, is_Some (t !! j) -> j < next_rowid t) /\
  (next_rowid t = 1 \/ is_Some (t !! (next_rowid t - 1))).
Proof.
  split; [pose proof (max_rowid_nonneg t); unfold next_rowid; lia|].
  split; [apply next_rowid_above|].
  unfold next_rowid. destruct (max_rowid_stored t) as [->|Hs]; [by left|].
  right. by replace (max_rowid t + 1 - 1) with (max_rowid t) by lia.
Qed.

(** No other id has these three properties. *)
Lemma next_rowid_unique (t : gmap Z Book) (i : Z) :
  1 <= i ->
  (forall j, is_Some (t !! j) -> j < i) ->
  i = 1 \/ is_Some (t !! (i - 1)) ->
  next_rowid t = i.
Proof.
  intros Hpos Habove Hjust.
  destruct (next_rowid_spec t) as (Hpos' & Habove' & Hjust').
  destruct Hjust as [->|Hprev]; destruct Hjust' as [Hn|Hprev'].
  - done.
  - apply Habove in Hprev'. lia.
  - apply Habove' in Hprev. lia.
  - apply Habove in Hprev'. apply Habove' in Hprev. lia.
Qed.

(** ** Running the handlers *)

Ltac unfold_monad :=
  cbv beta iota zeta delta
    [mbind M_bind mret M_ret raise request_form request_files load_form_data
     MultiDict_getitem MultiDict_contains int get_or_404
     db_session_commit].

(** [open] takes the destination for a directory exactly when the
    sanitised name is empty. *)
Lemma save_refused (name : pystr) :
  sanitised name = true ->
  pystr_eqb (os_path_join UPLOAD_FOLDER name) []
  || endswith [os_sep] (os_path_join UPLOAD_FOLDER name)
  = pystr_eqb name [].
Proof.
  intros Hs. destruct name as [|c0 rest0] eqn:E; [reflexivity|].
  rewrite <- E in *. assert (name <> []) as Hne by (by subst).
  rewrite os_path_join_sanitised by done.
  replace (pystr_eqb name []) with false
    by (symmetry; by apply pystr_eqb_false).
  replace (pystr_eqb (UPLOAD_FOLDER ++ [os_sep] ++ name) []) with false
    by (symmetry; by apply pystr_eqb_false).
  cbn [orb]. unfold endswith.
  pose proof (sanitised_no_separator _ Hs) as Hsep.
  clear E Hs. destruct name as [|c rest _] using rev_ind; [done|].
  rewrite !app_assoc, rev_app_distr. cbn [rev app startswith].
  unfold char_in in Hsep. rewrite List.existsb_app in Hsep.
  apply orb_false_elim in Hsep as [_ Hc]. cbn [List.existsb] in Hc.
  apply orb_false_elim in Hc as [Hc _]. by rewrite Hc.
Qed.

Lemma components_fit_app (len : N) (dir rest : pystr) :
  components_fit len (dir ++ os_sep :: rest) =
  components_fit len dir && components_fit 0 rest.
Proof.
  revert len. induction dir as [|c dir IH]; intros len; cbn [app components_fit].
  - by rewrite N.eqb_refl.
  - destruct (N.eqb c os_sep); [|apply IH].
    by rewrite IH, andb_assoc.
Qed.

Lemma keep_one_byte (c : codepoint) :
  filename_ascii_keep c = true ->
  N.eqb c os_sep = false /\ utf8_length c = 1%N.
Proof.
  intros Hc. unfold utf8_length.
  assert ((c <? 128)%N = true) as ->.
  { unfold filename_ascii_keep in Hc. apply N.ltb_lt.
    repeat (apply orb_prop in Hc as [Hc|Hc]);
      repeat (apply andb_prop in Hc as [? Hc]);
      repeat match goal with
             | Hle : (_ <=? _)%N = true |- _ => apply N.leb_le in Hle
             | Heq : (_ =? _)%N = true |- _ => apply N.eqb_eq in Heq
             end; lia. }
  split; [|done]. apply N.eqb_neq. intros ->. done.
Qed.

Lemma components_fit_name (len : N) (name : pystr) :
  List.forallb filename_ascii_keep name = true ->
  components_fit len name = (len + N.of_nat (length name) <=? NAME_MAX)%N.
Proof.
  revert len. induction name as [|c name IH]; intros len Hk.
  - cbn [components_fit length]. by rewrite N.add_0_r.
  - cbn [List.forallb] in Hk. apply andb_prop in Hk as [Hc Hk].
    destruct (keep_one_byte c Hc) as [Hsep Hlen].
    cbn [components_fit length]. rewrite Hsep, Hlen, IH by done.
    f_equal. lia.
Qed.

(** The path of an upload has no component that is too long exactly
    when the sanitised name is not. *)
Lemma components_fit_upload (name : pystr) :
  sanitised name = true ->
  components_fit 0 (os_path_join UPLOAD_FOLDER name) =
  (N.of_nat (length name) <=? NAME_MAX)%N.
Proof.
  intros Hs. destruct name as [|c0 rest0] eqn:E; [reflexivity|].
  rewrite <- E in *. assert (name <> []) as Hne by (by subst).
  rewrite os_path_join_sanitised by done. cbn [app].
  rewrite components_fit_app.
  replace (components_fit 0 UPLOAD_FOLDER) with true by reflexivity.
  cbn [andb]. rewrite components_fit_name; [done|].
  unfold sanitised in Hs. apply andb_prop in Hs as [Hs _].
  by apply andb_prop in Hs as [? _].
Qed.

Ltac read_scalars request :=
  destruct (MultiDict_get (str "title") (form request)); [|done];
  destruct (MultiDict_get (str "author") (form request)); [|done];
  destruct (MultiDict_get (str "year") (form request)) as [ys|]; [|done];
  destruct (py_int ys); [|done];
  destruct (MultiDict_get (str "description") (form request)); [|done];
  cbn [year set_id]; by destruct (fits_INTEGER _).

Ltac flush_row b :=
  unfold set_cover_image, set_description, set_year, set_author, set_title;
  cbn [year id title author description cover_image];
  destruct (fits_INTEGER _); [|done]; by destruct (id b).

Section Run.
Context `{Runtime}.

(** Saving an upload under its sanitised name. *)
Lemma save_upload (f : FileStorage) (w : World) :
  FileStorage_save f
    (os_path_join UPLOAD_FOLDER (secure_filename (filename f))) w =
  match upload_error f with
  | Some e => (Raise e, w)
  | None =>
      (Return tt,
       mkWorld (table w) (<[upload_path f := stream f]> (disk w)))
  end.
Proof.
  pose proof (secure_filename_sanitised (filename f)) as Hs.
  unfold FileStorage_save, upload_error, upload_path.
  rewrite components_fit_upload, save_refused by done.
  destruct (pystr_eqb (secure_filename (filename f)) []) eqn:Ee.
  - apply pystr_eqb_true in Ee. by rewrite Ee.
  - by destruct (N.of_nat (length (secure_filename (filename f)))
                 <=? NAME_MAX)%N.
Qed.

Lemma upload_error_None (f : FileStorage) :
  upload_error f = None <->
  name_storable (secure_filename (filename f)) = true.
Proof.
  unfold upload_error, name_storable.
  destruct (pystr_eqb (secure_filename (filename f)) []); [done|].
  by destruct (N.of_nat (length (secure_filename (filename f)))
               <=? NAME_MAX)%N.
Qed.

Lemma name_storable_nonempty (name : pystr) :
  name_storable name = true -> name <> [].
Proof.
  unfold name_storable. intros Hn. apply andb_prop in Hn as [Hn _].
  by apply negb_true_iff, pystr_eqb_false in Hn.
Qed.

Lemma body_taken (request : Request) :
  content_length request <= MAX_CONTENT_LENGTH ->
  form_parser_accepts request = true ->
  body_refused request = false.
Proof.
  intros Hlen Hacc. unfold body_refused. rewrite Hacc.
  apply Z.ltb_ge in Hlen. by rewrite Hlen.
Qed.

Lemma body_too_long (request : Request) :
  MAX_CONTENT_LENGTH < content_length request ->
  body_refused request = true.
Proof.
  intros Hlen. unfold body_refused. apply Z.ltb_lt in Hlen. by rewrite Hlen.
Qed.

Lemma add_book_run (request : Request) (w : World) :
  add_book request w =
  if negb (is_POST (method request))
  then (Return (render_template "add_book.html" None), w)
  else if body_refused request
  then (Raise RequestEntityTooLarge, w)
  else match cover_upload request with
       | None => create_with request default_cover w
       | Some f =>
           match upload_error f with
           | Some e => (Raise e, w)
           | None =>
               create_with request (upload_reference f)
                 (mkWorld (table w) (<[upload_path f := stream f]> (disk w)))
           end
       end.
Proof.
  unfold add_book.
  destruct (is_POST (method request)); [|done]. cbn [negb].
  unfold cover_upload, create_with, scalars, upload_reference.
  unfold_monad.
  destruct (body_refused request); [done|].
  destruct (MultiDict_get (str "cover_image") (files request)) as [f|].
  - destruct (pystr_eqb (filename f) []); cbn [negb].
    + read_scalars request.
    + rewrite save_upload.
      destruct (upload_error f); [done|].
      read_scalars request.
  - read_scalars request.
Qed.

Lemma edit_book_run (request : Request) (book_id : Z) (w : World) :
  edit_book request book_id w =
  match table w !! book_id with
  | None =>
      (Raise (if fits_INTEGER book_id then NotFound else OverflowError), w)
  | Some b =>
      if negb (is_POST (method request))
      then (Return (render_template "edit_book.html" (Some b)), w)
      else if body_refused request
      then (Raise RequestEntityTooLarge, w)
      else match scalars request with
           | inl e => (Raise e, w)
           | inr (t, a, y, d) =>
               let b' := mkBook (id b) t a y d (cover_image b) in
               match cover_upload request with
               | None => update_row b' w
               | Some f =>
                   match upload_error f with
                   | Some e => (Raise e, w)
                   | None =>
                       update_row (set_cover_image (upload_reference f) b')
                         (mkWorld (table w)
                                  (<[upload_path f := stream f]> (disk w)))
                   end
               end
           end
  end.
Proof.
  unfold edit_book.
  unfold cover_upload, update_row, scalars, upload_reference.
  unfold_monad.
  destruct (table w !! book_id) as [b|];
    [|by destruct (fits_INTEGER book_id)].
  destruct (is_POST (method request)); [|done]. cbn [negb].
  destruct (body_refused request); [done|].
  destruct (MultiDict_get (str "title") (form request)); [|done].
  destruct (MultiDict_get (str "author") (form request)); [|done].
  destruct (MultiDict_get (str "year") (form request)) as [ys|]; [|done].
  destruct (py_int ys); [|done].
  destruct (MultiDict_get (str "description") (form request)); [|done].
  destruct (MultiDict_get (str "cover_image") (files request)) as [f|].
  - destruct (pystr_eqb (filename f) []); cbn [negb].
    + flush_row b.
    + rewrite save_upload.
      destruct (upload_error f); [done|].
      flush_row b.
  - flush_row b.
Qed.

Lemma delete_book_run (book_id : Z) (w : World) :
  delete_book book_id w =
  match table w !! book_id with
  | None =>
      (Raise (if fits_INTEGER book_id then NotFound else OverflowError), w)
  | Some b =>
      (Return (redirect url_index),
       match id b with
       | Some i => mkWorld (delete i (table w)) (disk w)
       | None => w
       end)
  end.
Proof.
  unfold delete_book. unfold_monad.
  destruct (table w !! book_id) as [b|];
    [by destruct (id b)|by destruct (fits_INTEGER book_id)].
Qed.

Lemma book_detail_run (book_id : Z) (w : World) :
  book_detail book_id w =
  match table w !! book_id with
  | None =>
      (Raise (if fits_INTEGER book_id then NotFound else OverflowError), w)
  | Some b => (Return (render_template "book_detail.html" (Some b)), w)
  end.
Proof.
  unfold book_detail. unfold_monad.
  destruct (table w !! book_id); [done|by destruct (fits_INTEGER book_id)].
Qed.

(** What [scalars] returns, in terms of the fields of the form. *)
Lemma scalars_inr (request : Request) (t a : pystr) (y : Z) (d : pystr) :
  scalars request = inr (t, a, y, d) <->
  MultiDict_get (str "title") (form request) = Some t /\
  MultiDict_get (str "author") (form request) = Some a /\
  (exists ys, MultiDict_get (str "year") (form request) = Some ys /\
              py_int ys = Some y) /\
  MultiDict_get (str "description") (form request) = Some d.
Proof.
  unfold scalars. split.
  - destruct (MultiDict_get (str "title") (form request)); [|done].
    destruct (MultiDict_get (str "author") (form request)); [|done].
    destruct (MultiDict_get (str "year") (form request)) as [ys|]; [|done].
    destruct (py_int ys) eqn:Ey; [|done].
    destruct (MultiDict_get (str "description") (form request)); [|done].
    intros [= -> -> -> ->]. eauto 10.
  - intros (-> & -> & (ys & -> & ->) & ->). done.
Qed.

Lemma scalars_inl (request : Request) :
  field_missing request \/ year_not_integer request ->
  exists e, scalars request = inl e /\ validation_error e.
Proof.
  unfold scalars, validation_error. intros Hbad.
  destruct (MultiDict_get (str "title") (form request)) eqn:Et; [|eauto].
  destruct (MultiDict_get (str "author") (form request)) eqn:Ea; [|eauto].
  destruct (MultiDict_get (str "year") (form request)) as [ys|] eqn:Ey;
    [|eauto].
  destruct (py_int ys) eqn:Ei; [|eauto].
  destruct (MultiDict_get (str "description") (form request)) eqn:Ed; [|eauto].
  exfalso. destruct Hbad as [(key & Hin & Hnone)|(ys' & Hy & Hi)].
  - simpl in Hin. destruct Hin as [<-|[<-|[<-|[<-|[]]]]]; congruence.
  - congruence.
Qed.

Lemma create_with_disk (request : Request) (cover : pystr) (w : World) :
  disk (create_with request cover w).2 = disk w.
Proof.
  unfold create_with.
  destruct (scalars request) as [e|[[[t a] y] d]]; [done|].
  by destruct (fits_INTEGER y).
Qed.

Lemma create_with_table (request : Request) (cover : pystr) (w : World) :
  table (create_with request cover w).2 = table w \/
  exists t a y d,
    table (create_with request cover w).2 =
    <[next_rowid (table w) :=
        mkBook (Some (next_rowid (table w))) t a y d cover]> (table w).
Proof.
  unfold create_with. destruct (scalars request) as [e|[[[t a] y] d]];
    [by left|].
  destruct (fits_INTEGER y); [|by left]. right. by exists t, a, y, d.
Qed.

(** What a create request can change: at most the file of its upload and
    one new row. *)
Lemma add_book_effect (request : Request) (w : World) :
  (disk (add_book request w).2 = disk w \/
   exists f, cover_upload request = Some f /\
             secure_filename (filename f) <> [] /\
             disk (add_book request w).2 =
             <[upload_path f := stream f]> (disk w)) /\
  (table (add_book request w).2 = table w \/
   upload_storable request = true /\
   exists t a y d,
     table (add_book request w).2 =
     <[next_rowid (table w) :=
         mkBook (Some (next_rowid (table w))) t a y d
                (resolved_cover request)]> (table w)).
Proof.
  rewrite add_book_run. unfold resolved_cover, upload_storable.
  destruct (negb (is_POST (method request))); [by split; left|].
  destruct (body_refused request); [by split; left|].
  destruct (cover_upload request) as [f|] eqn:Ef.
  - destruct (upload_error f) as [e|] eqn:Es; [by split; left|].
    apply upload_error_None in Es.
    pose proof (name_storable_nonempty _ Es) as Hne. split.
    + right. exists f. by rewrite create_with_disk.
    + destruct (create_with_table request (upload_reference f)
                  (mkWorld (table w) (<[upload_path f := stream f]> (disk w))))
        as [Ht|Ht]; [by left|by right].
  - split; [left; apply create_with_disk|].
    destruct (create_with_table request default_cover w) as [Ht|Ht];
      [by left|by right].
Qed.

Lemma update_row_disk (b' : Book) (w : World) :
  disk (update_row b' w).2 = disk w.
Proof.
  unfold update_row. destruct (fits_INTEGER (year b')); [|done].
  by destruct (id b').
Qed.

Lemma update_row_table (b' : Book) (w : World) :
  table (update_row b' w).2 = table w \/
  exists i, id b' = Some i /\ table (update_row b' w).2 = <[i := b']> (table w).
Proof.
  unfold update_row. destruct (fits_INTEGER (year b')); [|by left].
  destruct (id b') as [i|]; [|by left]. right. by exists i.
Qed.

(** What an update request can change: at most the file of its upload and
    the row it names, whose cover stays or becomes the reference of the
    upload. *)
Lemma edit_book_effect (request : Request) (book_id : Z) (w : World) :
  (disk (edit_book request book_id w).2 = disk w \/
   exists f, cover_upload request = Some f /\
             secure_filename (filename f) <> [] /\
             disk (edit_book request book_id w).2 =
             <[upload_path f := stream f]> (disk w)) /\
  (table (edit_book request book_id w).2 = table w \/
   exists b i t a y d,
     upload_storable request = true /\
     table w !! book_id = Some b /\ id b = Some i /\
     table (edit_book request book_id w).2 =
     <[i := mkBook (Some i) t a y d
              (match cover_upload request with
               | Some f => upload_reference f
               | None => cover_image b
               end)]> (table w)).
Proof.
  rewrite edit_book_run.
  destruct (table w !! book_id) as [b|] eqn:Eb; [|by split; left].
  destruct (negb (is_POST (method request))); [by split; left|].
  destruct (body_refused request); [by split; left|].
  destruct (scalars request) as [e|[[[t a] y] d]]; [by split; left|].
  cbn zeta. unfold upload_storable.
  destruct (cover_upload request) as [f|] eqn:Ef.
  - destruct (upload_error f) as [e|] eqn:Es; [by split; left|].
    apply upload_error_None in Es.
    pose proof (name_storable_nonempty _ Es) as Hne. split.
    + right. exists f. by rewrite update_row_disk.
    + match goal with |- context [update_row ?b' ?w'] =>
        destruct (update_row_table b' w') as [Ht|(i & Hi & Ht)] end;
        rewrite Ht; [by left|].
      right. exists b, i, t, a, y, d. cbn in Hi. rewrite Hi. done.
  - split; [left; apply update_row_disk|].
    match goal with |- context [update_row ?b' ?w'] =>
      destruct (update_row_table b' w') as [Ht|(i & Hi & Ht)] end;
      rewrite Ht; [by left|].
    right. exists b, i, t, a, y, d. cbn in Hi. rewrite Hi. done.
Qed.

End Run.

(** ** The book life cycle *)

Section LifeCycle.
Context `{Runtime}.

(** C1, as the handler has it. An update of a stored book whose body is
    parsed (it is within [MAX_CONTENT_LENGTH] and the form parser
    accepts it) and whose form supplies title [t], author [a], a year
    [y] of the INTEGER range and description [d] is answered with a
    redirect and leaves under the
    book's id the record with exactly these four values; its
    [cover_image] is the one from before the call when no file was sent
    or the file's name is empty, and exactly the reference of the upload
    when one was sent and saved. *)
Theorem edit_book_overwrites (request : Request) (book_id : Z) (w : World)
    (b : Book) (t a : pystr) (y : Z) (d : pystr) :
  rows_keyed (table w) ->
  table w !! book_id = Some b ->
  is_POST (method request) = true ->
  content_length request <= MAX_CONTENT_LENGTH ->
  form_parser_accepts request = true ->
  scalars request = inr (t, a, y, d) ->
  fits_INTEGER y = true ->
  upload_storable request = true ->
  exists w',
    edit_book request book_id w =
      (Return (redirect (url_book_detail (Some book_id))), w') /\
    table w' !! book_id =
      Some (mkBook (Some book_id) t a y d
              (match cover_upload request with
               | None => cover_image b
               | Some f => upload_reference f
               end)).
Proof.
  intros Hkeyed Hb Hpost Hlen Hacc Hsc Hfit Hst.
  rewrite edit_book_run, Hb, Hpost, Hsc. cbn [negb].
  rewrite (body_taken _ Hlen Hacc). cbn zeta.
  specialize (Hkeyed _ _ Hb). rewrite Hkeyed.
  unfold upload_storable in Hst.
  destruct (cover_upload request) as [f|].
  - apply upload_error_None in Hst. rewrite Hst.
    unfold update_row, set_cover_image. cbn [year id]. rewrite Hfit.
    eexists. split; [reflexivity|]. cbn [table]. apply lookup_insert_eq.
  - unfold update_row. cbn [year id]. rewrite Hfit.
    eexists. split; [reflexivity|]. cbn [table]. apply lookup_insert_eq.
Qed.

(** C3, as the handler has it. A create request whose body is parsed
    (it is within [MAX_CONTENT_LENGTH] and the form parser accepts it),
    whose form supplies title [t], author [a], a year [y] of the INTEGER
    range and description [d], and whose cover was resolved, is answered
    with a
    redirect, and reading the book back by the id assigned to it returns
    the record with these values and the cover reference the request
    resolved to. *)
Theorem create_read_roundtrip (request : Request) (w : World)
    (t a : pystr) (y : Z) (d : pystr) :
  is_POST (method request) = true ->
  content_length request <= MAX_CONTENT_LENGTH ->
  form_parser_accepts request = true ->
  scalars request = inr (t, a, y, d) ->
  fits_INTEGER y = true ->
  upload_storable request = true ->
  exists w',
    add_book request w = (Return (redirect url_index), w') /\
    book_detail (next_rowid (table w)) w' =
      (Return (render_template "book_detail.html"
                 (Some (mkBook (Some (next_rowid (table w))) t a y d
                               (resolved_cover request)))),
       w').
Proof.
  intros Hpost Hlen Hacc Hsc Hfit Hst.
  rewrite add_book_run, Hpost. cbn [negb].
  rewrite (body_taken _ Hlen Hacc).
  unfold upload_storable in Hst. unfold resolved_cover, create_with.
  rewrite Hsc, Hfit.
  destruct (cover_upload request) as [f|].
  - apply upload_error_None in Hst. rewrite Hst.
    eexists. split; [reflexivity|].
    rewrite book_detail_run. cbn [table]. by rewrite lookup_insert_eq.
  - eexists. split; [reflexivity|].
    rewrite book_detail_run. cbn [table]. by rewrite lookup_insert_eq.
Qed.

(** C4. A create request that sends no file under [cover_image], or one
    whose name is empty, changes no file, whatever its outcome; every row
    it adds has the default cover; and when its body is parsed (it is
    within [MAX_CONTENT_LENGTH] and the form parser accepts it) and its
    scalars are well formed, the year one of the INTEGER range, it does
    add the row, with [images/default_cover.jpg] as cover. *)
Theorem no_upload_default_cover (request : Request) (w : World) :
  cover_upload request = None ->
  disk (add_book request w).2 = disk w /\
  (forall i b, table (add_book request w).2 !! i = Some b ->
               table w !! i <> Some b ->
               cover_image b = str "images/default_cover.jpg") /\
  (forall t a y d,
     is_POST (method request) = true ->
     content_length request <= MAX_CONTENT_LENGTH ->
     form_parser_accepts request = true ->
     scalars request = inr (t, a, y, d) ->
     fits_INTEGER y = true ->
     add_book request w =
       (Return (redirect url_index),
        mkWorld (<[next_rowid (table w) :=
                    mkBook (Some (next_rowid (table w))) t a y d
                           (str "images/default_cover.jpg")]> (table w))
                (disk w))).
Proof.
  intros Hno. split; [|split].
  - destruct (add_book_effect request w) as [[Hd|(f & Hf & _)] _];
      [done|congruence].
  - intros i b Hnew Hold.
    destruct (add_book_effect request w) as [_ [Ht|(_ & t & a & y & d & Ht)]];
      rewrite Ht in Hnew; [done|].
    destruct (decide (next_rowid (table w) = i)) as [<-|Hne].
    + rewrite lookup_insert_eq in Hnew. injection Hnew as <-.
      unfold resolved_cover. by rewrite Hno.
    + by rewrite lookup_insert_ne in Hnew.
  - intros t a y d Hpost Hlen Hacc Hsc Hfit.
    rewrite add_book_run, Hpost, Hno. cbn [negb].
    rewrite (body_taken _ Hlen Hacc).
    unfold create_with. by rewrite Hsc, Hfit.
Qed.


End LifeCycle.

(** ** The cover upload *)

Section Upload.
Context `{Runtime}.

Lemma changed_file_inside (d : gmap pystr (list byte)) (f : FileStorage)
    (p : pystr) :
  secure_filename (filename f) <> [] ->
  <[upload_path f := stream f]> d !! p <> d !! p ->
  inside_uploads p = true.
Proof.
  intros Hne Hchanged.
  destruct (decide (upload_path f = p)) as [<-|Hp].
  - apply upload_inside; [apply secure_filename_sanitised|done].
  - by rewrite lookup_insert_ne in Hchanged.
Qed.

(** C2, as the handlers have it. Whatever the name of the uploaded file,
    a create or an update changes no file other than an entry of the
    upload directory itself; the name it saves under holds only
    characters of [A-Za-z0-9_.-] and neither starts nor ends with a dot
    or an underscore, so that it holds no separator and is neither [.]
    nor [..]; the reference a new row stores is the default one or
    [images/uploads/] followed by such a name, and the reference of an
    updated row is the one it had or [images/uploads/] followed by such a
    name. *)
Theorem uploads_confined (request : Request) (book_id : Z) (w : World) :
  (forall p, disk (add_book request w).2 !! p <> disk w !! p ->
             inside_uploads p = true) /\
  (forall p, disk (edit_book request book_id w).2 !! p <> disk w !! p ->
             inside_uploads p = true) /\
  (forall f, sanitised (secure_filename (filename f)) = true /\
             (secure_filename (filename f) <> [] ->
              plain_component (secure_filename (filename f)) = true /\
              upload_path f =
                UPLOAD_FOLDER ++ [os_sep] ++ secure_filename (filename f))) /\
  (forall i b, table (add_book request w).2 !! i = Some b ->
               table w !! i <> Some b ->
               cover_image b = default_cover \/
               exists name, cover_image b = str "images/uploads/" ++ name /\
                            sanitised name = true /\
                            plain_component name = true) /\
  (forall i b', table (edit_book request book_id w).2 !! i = Some b' ->
                table w !! i <> Some b' ->
                (exists b, table w !! book_id = Some b /\
                           cover_image b' = cover_image b) \/
                exists name, cover_image b' = str "images/uploads/" ++ name /\
                             sanitised name = true /\
                             plain_component name = true).
Proof.
  split; [|split; [|split; [|split]]].
  - intros p Hp.
    destruct (add_book_effect request w) as [[Hd|(f & _ & Hne & Hd)] _];
      rewrite Hd in Hp; [done|]. by eapply changed_file_inside.
  - intros p Hp.
    destruct (edit_book_effect request book_id w)
      as [[Hd|(f & _ & Hne & Hd)] _];
      rewrite Hd in Hp; [done|]. by eapply changed_file_inside.
  - intros f. pose proof (secure_filename_sanitised (filename f)) as Hs.
    split; [done|]. intros Hne. split.
    + by apply sanitised_plain.
    + by apply os_path_join_sanitised.
  - intros i b Hnew Hold.
    destruct (add_book_effect request w)
      as [_ [Ht|(Hst & t & a & y & d & Ht)]]; rewrite Ht in Hnew; [done|].
    destruct (decide (next_rowid (table w) = i)) as [<-|Hi];
      [|by rewrite lookup_insert_ne in Hnew].
    rewrite lookup_insert_eq in Hnew. injection Hnew as <-. cbn [cover_image].
    unfold resolved_cover, upload_storable in *.
    destruct (cover_upload request) as [f|]; [|by left].
    right. exists (secure_filename (filename f)).
    apply name_storable_nonempty in Hst.
    pose proof (secure_filename_sanitised (filename f)) as Hs.
    split; [done|]. split; [done|]. by apply sanitised_plain.
  - intros i b' Hnew Hold.
    destruct (edit_book_effect request book_id w)
      as [_ [Ht|(b & j & t & a & y & d & Hst & Hb & _ & Ht)]];
      rewrite Ht in Hnew; [done|].
    destruct (decide (j = i)) as [<-|Hi];
      [|by rewrite lookup_insert_ne in Hnew].
    rewrite lookup_insert_eq in Hnew. injection Hnew as <-. cbn [cover_image].
    unfold upload_storable in Hst.
    destruct (cover_upload request) as [f|]; [|left; by exists b].
    right. exists (secure_filename (filename f)).
    apply name_storable_nonempty in Hst.
    pose proof (secure_filename_sanitised (filename f)) as Hs.
    split; [done|]. split; [done|]. by apply sanitised_plain.
Qed.

(** C8, as the handlers have it. A create request with an upload of
    non-empty name, in a body that is parsed (it is within
    [MAX_CONTENT_LENGTH] and the form parser accepts it), does with the
    files exactly what saving that upload under its sanitised name does,
    whatever [allowed_file] answers for the name: when the sanitised
    name is one [save] can open a file under, the file is there
    afterwards; when it is not, [save] raises and the create ends there,
    with nothing written. An update of a stored book whose scalars are
    read does with the files what the save does, too. *)
Theorem any_extension_saved (request : Request) (w : World)
    (f : FileStorage) (verdict : bool) :
  is_POST (method request) = true ->
  content_length request <= MAX_CONTENT_LENGTH ->
  form_parser_accepts request = true ->
  cover_upload request = Some f ->
  allowed_file (filename f) = verdict ->
  disk (add_book request w).2 =
    disk (FileStorage_save f (upload_path f) w).2 /\
  (name_storable (secure_filename (filename f)) = true ->
   disk (add_book request w).2 !! upload_path f = Some (stream f)) /\
  (name_storable (secure_filename (filename f)) = false ->
   exists e, add_book request w = (Raise e, w) /\
             (e = IsADirectoryError \/ e = OSError)) /\
  (forall book_id t a y d,
     is_Some (table w !! book_id) ->
     scalars request = inr (t, a, y, d) ->
     disk (edit_book request book_id w).2 =
       disk (FileStorage_save f (upload_path f) w).2).
Proof.
  intros Hpost Hlen Hacc Hf _. apply body_taken in Hlen; [|done].
  assert (disk (FileStorage_save f (upload_path f) w).2 =
          match upload_error f with
          | Some _ => disk w
          | None => <[upload_path f := stream f]> (disk w)
          end) as Hsave.
  { unfold upload_path at 1. rewrite save_upload.
    by destruct (upload_error f). }
  assert (disk (add_book request w).2 =
          disk (FileStorage_save f (upload_path f) w).2) as Hadd.
  { rewrite Hsave, add_book_run, Hpost, Hlen, Hf. cbn [negb].
    destruct (upload_error f); [done|].
    by rewrite create_with_disk. }
  split; [done|]. split; [|split].
  - intros Hst. rewrite Hadd, Hsave.
    apply upload_error_None in Hst. rewrite Hst. apply lookup_insert_eq.
  - intros Hst. rewrite add_book_run, Hpost, Hlen, Hf. cbn [negb].
    destruct (upload_error f) as [e|] eqn:Ee.
    + exists e. split; [done|]. unfold upload_error in Ee.
      destruct (pystr_eqb (secure_filename (filename f)) []);
        [left; congruence|].
      destruct (N.of_nat (length (secure_filename (filename f)))
                <=? NAME_MAX)%N; [done|right; congruence].
    + apply upload_error_None in Ee. congruence.
  - intros book_id t a y d [b Hb] Hsc.
    rewrite Hsave, edit_book_run, Hb, Hpost, Hlen, Hsc, Hf. cbn [negb].
    destruct (upload_error f); [done|].
    by rewrite update_row_disk.
Qed.

(** C9. A POST that carries a file longer than [MAX_CONTENT_LENGTH] is
    refused with [RequestEntityTooLarge] by a create, and by an update of
    a stored book, before anything is saved: the table and the files are
    as before. *)
Theorem oversized_upload_refused (request : Request) (w : World)
    (key : pystr) (f : FileStorage) :
  is_POST (method request) = true ->
  In (key, f) (files request) ->
  MAX_CONTENT_LENGTH < Z.of_nat (length (stream f)) ->
  uploads_within_body request ->
  add_book request w = (Raise RequestEntityTooLarge, w) /\
  (forall book_id, is_Some (table w !! book_id) ->
     edit_book request book_id w = (Raise RequestEntityTooLarge, w)).
Proof.
  intros Hpost Hin Hbig Hbody.
  assert (body_refused request = true) as Hlen.
  { apply body_too_long. unfold uploads_within_body in Hbody.
    rewrite List.Forall_forall in Hbody. specialize (Hbody _ Hin).
    cbn [snd] in Hbody. lia. }
  split.
  - by rewrite add_book_run, Hpost, Hlen.
  - intros book_id [b Hb]. by rewrite edit_book_run, Hb, Hpost, Hlen.
Qed.

(** C10, as the handler has it. A create request, in a body that is
    parsed (it is within [MAX_CONTENT_LENGTH] and the form parser
    accepts it), with an upload whose sanitised name is one [save] can
    open a file under and a year that is not an integer fails, adds no
    row, and leaves the uploaded file in the upload directory. *)
Theorem failed_create_leaves_file (request : Request) (w : World)
    (f : FileStorage) :
  is_POST (method request) = true ->
  content_length request <= MAX_CONTENT_LENGTH ->
  form_parser_accepts request = true ->
  cover_upload request = Some f ->
  name_storable (secure_filename (filename f)) = true ->
  year_not_integer request ->
  exists e,
    add_book request w =
      (Raise e, mkWorld (table w) (<[upload_path f := stream f]> (disk w))) /\
    validation_error e /\
    inside_uploads (upload_path f) = true.
Proof.
  intros Hpost Hlen Hacc Hf Hst Hyear. apply body_taken in Hlen; [|done].
  destruct (scalars_inl request (or_intror Hyear)) as (e & He & Hval).
  exists e. split; [|split; [done|]].
  - rewrite add_book_run, Hpost, Hlen, Hf. cbn [negb].
    apply upload_error_None in Hst. rewrite Hst.
    unfold create_with. by rewrite He.
  - apply upload_inside; [apply secure_filename_sanitised|].
    by apply name_storable_nonempty.
Qed.

End Upload.

(** ** Validation and identity *)

Section Identity.
Context `{Runtime}.

(** C6, as the handler has it. A create request with a missing scalar or
    a year that is not an integer fails and adds no row; the exception is
    [BadRequestKeyError] or [ValueError] when the body is parsed (it is
    within [MAX_CONTENT_LENGTH] and the form parser accepts it) and the
    upload, if any, could be saved. A create request with all four
    scalars, the year an integer of the INTEGER range, a body that is
    parsed and, if it has an upload, one that can be saved, succeeds and
    adds exactly the new row. *)
Theorem create_validation (request : Request) (w : World) :
  is_POST (method request) = true ->
  (field_missing request \/ year_not_integer request ->
   exists e w',
     add_book request w = (Raise e, w') /\ table w' = table w /\
     (content_length request <= MAX_CONTENT_LENGTH ->
      form_parser_accepts request = true ->
      upload_storable request = true -> validation_error e)) /\
  (forall t a y d,
     scalars request = inr (t, a, y, d) ->
     fits_INTEGER y = true ->
     content_length request <= MAX_CONTENT_LENGTH ->
     form_parser_accepts request = true ->
     upload_storable request = true ->
     exists w',
       add_book request w = (Return (redirect url_index), w') /\
       table w' =
         <[next_rowid (table w) :=
             mkBook (Some (next_rowid (table w))) t a y d
                    (resolved_cover request)]> (table w)).
Proof.
  intros Hpost. split.
  - intros Hbad. destruct (scalars_inl request Hbad) as (e & He & Hval).
    rewrite add_book_run, Hpost. cbn [negb].
    destruct (body_refused request) eqn:Hlen.
    { eexists _, _. split; [reflexivity|]. split; [done|].
      intros Hle Hacc. rewrite (body_taken _ Hle Hacc) in Hlen. done. }
    unfold upload_storable, create_with. rewrite He.
    destruct (cover_upload request) as [f|].
    + destruct (upload_error f) as [e'|] eqn:Ee.
      * eexists _, _. split; [reflexivity|]. split; [done|].
        intros _ _ Hst. apply upload_error_None in Hst. congruence.
      * eexists _, _. split; [reflexivity|]. by split.
    + eexists _, _. split; [reflexivity|]. by split.
  - intros t a y d Hsc Hfit Hlen Hacc Hst.
    rewrite add_book_run, Hpost, (body_taken _ Hlen Hacc). cbn [negb].
    unfold upload_storable in Hst. unfold resolved_cover, create_with.
    rewrite Hsc, Hfit.
    destruct (cover_upload request) as [f|].
    + apply upload_error_None in Hst. rewrite Hst. by eexists.
    + by eexists.
Qed.

Lemma rows_keyed_insert (t : gmap Z Book) (i : Z) (b : Book) :
  rows_keyed t -> id b = Some i -> rows_keyed (<[i := b]> t).
Proof.
  intros Hk Hb j b' Hj. destruct (decide (i = j)) as [<-|Hne].
  - rewrite lookup_insert_eq in Hj. by injection Hj as <-.
  - rewrite lookup_insert_ne in Hj by done. by apply Hk.
Qed.

Lemma rows_keyed_delete (t : gmap Z Book) (i : Z) :
  rows_keyed t -> rows_keyed (delete i t).
Proof.
  intros Hk j b Hj. apply lookup_delete_Some in Hj as [_ Hj]. by apply Hk.
Qed.

Lemma add_book_new_row (request : Request) (w : World) (i : Z) :
  table (add_book request w).2 !! i <> table w !! i ->
  i = next_rowid (table w) /\ table w !! i = None /\
  (forall j, is_Some (table w !! j) -> j < i) /\
  exists b, table (add_book request w).2 !! i = Some b /\ id b = Some i.
Proof.
  destruct (add_book_effect request w)
    as [_ [Ha|(_ & t & a & y & d & Ha)]]; rewrite Ha; [done|].
  intros Hi. destruct (decide (next_rowid (table w) = i)) as [<-|Hne];
    [|by rewrite lookup_insert_ne in Hi].
  split; [done|]. split; [apply next_rowid_fresh|].
  split; [apply next_rowid_above|].
  rewrite lookup_insert_eq. by eexists.
Qed.

Lemma add_book_rows_keyed (request : Request) (w : World) :
  rows_keyed (table w) -> rows_keyed (table (add_book request w).2).
Proof.
  intros Hk. destruct (add_book_effect request w)
    as [_ [Ha|(_ & t & a & y & d & Ha)]]; rewrite Ha; [done|].
  by apply rows_keyed_insert.
Qed.

Lemma edit_book_same_ids (request : Request) (book_id : Z) (w : World) (i : Z) :
  rows_keyed (table w) ->
  is_Some (table (edit_book request book_id w).2 !! i) <->
  is_Some (table w !! i).
Proof.
  intros Hk. destruct (edit_book_effect request book_id w)
    as [_ [He|(b & j & t & a & y & d & _ & Hb & Hj & He)]]; rewrite He;
    [done|].
  assert (j = book_id) as -> by (specialize (Hk _ _ Hb); congruence).
  destruct (decide (book_id = i)) as [<-|Hne].
  - rewrite lookup_insert_eq, Hb. split; eauto.
  - by rewrite lookup_insert_ne.
Qed.

Lemma edit_book_rows_keyed (request : Request) (book_id : Z) (w : World) :
  rows_keyed (table w) ->
  rows_keyed (table (edit_book request book_id w).2).
Proof.
  intros Hk. destruct (edit_book_effect request book_id w)
    as [_ [He|(b & j & t & a & y & d & _ & Hb & Hj & He)]]; rewrite He;
    [done|].
  by apply rows_keyed_insert.
Qed.

Lemma delete_book_table (book_id : Z) (w : World) :
  rows_keyed (table w) ->
  table (delete_book book_id w).2 = delete book_id (table w).
Proof.
  intros Hk. rewrite delete_book_run.
  destruct (table w !! book_id) as [b|] eqn:Eb.
  - by rewrite (Hk _ _ Eb).
  - cbn [snd]. symmetry. by apply delete_id.
Qed.

(** Every world a run reaches from the empty one has its rows stored
    under their own ids. *)
Lemma run_rows_keyed (ops : list Operation) (w : World) :
  rows_keyed (table w) -> rows_keyed (table (run ops w)).
Proof.
  unfold run. revert w. induction ops as [|op ops IH]; intros w Hk; [done|].
  cbn [fold_left]. apply IH. destruct op as [request|request i|i]; cbn [perform].
  - by apply add_book_rows_keyed.
  - by apply edit_book_rows_keyed.
  - rewrite delete_book_table by done. by apply rows_keyed_delete.
Qed.

(** C7, as the store has it. In a table whose ids are positive, as the
    engine assigns them: a create changes the table at no id other than
    the one it assigns, which is at least 1, is used by no row, lies
    above every id in use and, unless it is 1, just above one of them:
    one more than the largest id stored; the new row carries that id. An
    update keeps the set of stored ids and a delete removes no row other
    than the one it names; after each of the three every row still
    carries the id it is stored under. When the deleted book had the
    largest id, and that id was 1 or the id below it is in use, the id
    is free after the delete and it is the one the next create
    assigns. *)
Theorem rowid_assignment (request : Request) (book_id : Z) (w : World) :
  rows_keyed (table w) ->
  (forall j, is_Some (table w !! j) -> 1 <= j) ->
  (forall i, table (add_book request w).2 !! i <> table w !! i ->
     i = next_rowid (table w) /\ 1 <= i /\ table w !! i = None /\
     (forall j, is_Some (table w !! j) -> j < i) /\
     (i = 1 \/ is_Some (table w !! (i - 1))) /\
     exists b, table (add_book request w).2 !! i = Some b /\ id b = Some i) /\
  (forall i, is_Some (table (edit_book request book_id w).2 !! i) <->
             is_Some (table w !! i)) /\
  (forall i, i <> book_id ->
     table (delete_book book_id w).2 !! i = table w !! i) /\
  rows_keyed (table (add_book request w).2) /\
  rows_keyed (table (edit_book request book_id w).2) /\
  rows_keyed (table (delete_book book_id w).2) /\
  (is_Some (table w !! book_id) ->
   (forall j, is_Some (table w !! j) -> j <= book_id) ->
   book_id = 1 \/ is_Some (table w !! (book_id - 1)) ->
   table (delete_book book_id w).2 !! book_id = None /\
   next_rowid (table (delete_book book_id w).2) = book_id /\
   forall request' i,
     table (add_book request' (delete_book book_id w).2).2 !! i <>
     table (delete_book book_id w).2 !! i ->
     i = book_id).
Proof.
  intros Hk Hpositive.
  split; [|split; [|split; [|split; [|split; [|split]]]]].
  - intros i Hi. destruct (add_book_new_row _ _ _ Hi) as (-> & Hnone & _ & Hb).
    destruct (next_rowid_spec (table w)) as (Hpos & Habove & Hjust).
    done.
  - intros i. by apply edit_book_same_ids.
  - intros i Hi. rewrite delete_book_table by done.
    by apply lookup_delete_ne.
  - by apply add_book_rows_keyed.
  - by apply edit_book_rows_keyed.
  - rewrite delete_book_table by done. by apply rows_keyed_delete.
  - intros Hstored Hlargest Hjust.
    assert (next_rowid (table (delete_book book_id w).2) = book_id) as Hnext.
    { rewrite delete_book_table by done.
      apply next_rowid_unique; [by apply Hpositive| |].
      + intros j [b Hj]. apply lookup_delete_Some in Hj as [Hne Hj].
        assert (j <= book_id) by (apply Hlargest; eauto). lia.
      + destruct Hjust as [->|Hprev]; [by left|right].
        rewrite lookup_delete_ne by lia. done. }
    split; [|split; [done|]].
    + rewrite delete_book_table by done. apply lookup_delete_eq.
    + intros request' i Hi.
      destruct (add_book_new_row _ _ _ Hi) as (-> & _). done.
Qed.

End Identity.

(** ** The handlers on the sample requests *)

Lemma rows_keyed_empty : rows_keyed (table empty_world).
Proof.
  intros i b Hb. unfold empty_world in Hb. cbn [table] in Hb.
  by rewrite lookup_empty in Hb.
Qed.

Lemma rows_keyed_dune : rows_keyed (table dune_world).
Proof.
  intros i b Hb. unfold dune_world in Hb. cbn [table] in Hb.
  apply lookup_singleton_Some in Hb as [<- <-]. done.
Qed.

Lemma small_body : 1024 <= MAX_CONTENT_LENGTH.
Proof. unfold MAX_CONTENT_LENGTH. lia. Qed.

(** Dune is given the title, author, year and description of Emma: once
    with the browser's empty file field, once with a new cover. *)
Lemma edit_book_overwrites_witness :
  (exists w',
     @edit_book ascii_runtime (post emma_form no_file_selected) 1 dune_world =
       (Return (redirect (url_book_detail (Some 1))), w') /\
     table w' !! 1 = Some emma) /\
  (exists w',
     @edit_book ascii_runtime (post emma_form (upload "emma.jpg")) 1 dune_world =
       (Return (redirect (url_book_detail (Some 1))), w') /\
     table w' !! 1 =
       Some (set_cover_image (str "images/uploads/emma.jpg") emma)).
Proof.
  split.
  - exact (@edit_book_overwrites ascii_runtime
             (post emma_form no_file_selected) 1 dune_world dune
             (str "Emma") (str "Jane Austen") 1815 (str "a novel")
             rows_keyed_dune eq_refl eq_refl small_body eq_refl eq_refl
             eq_refl eq_refl).
  - exact (@edit_book_overwrites ascii_runtime
             (post emma_form (upload "emma.jpg")) 1 dune_world dune
             (str "Emma") (str "Jane Austen") 1815 (str "a novel")
             rows_keyed_dune eq_refl eq_refl small_body eq_refl eq_refl
             eq_refl eq_refl).
Defined.

(** C1, as stated, fails: the update supplies the year 2^63, an integer
    that the INTEGER column cannot take; the commit raises and Dune
    keeps its title, author, year and description. *)
Lemma update_refused_by_year :
  @scalars ascii_runtime (post far_future_form no_file_selected) =
    inr (str "Dune", str "Frank Herbert", 2 ^ 63, str "desc") /\
  @edit_book ascii_runtime (post far_future_form no_file_selected) 1
    (mkWorld {[ 1 := emma ]} ∅) =
    (Raise OverflowError, mkWorld {[ 1 := emma ]} ∅).
Proof. split; vm_compute; reflexivity. Qed.

(** Dune is created in the empty table and read back under id 1. *)
Lemma create_read_roundtrip_witness :
  exists w',
    @add_book ascii_runtime (post dune_form []) empty_world =
      (Return (redirect url_index), w') /\
    book_detail 1 w' =
      (Return (render_template "book_detail.html" (Some dune)), w').
Proof.
  exact (@create_read_roundtrip ascii_runtime (post dune_form []) empty_world
           (str "Dune") (str "Frank Herbert") 1965 (str "desc")
           eq_refl small_body eq_refl eq_refl eq_refl eq_refl).
Defined.

(** C3, as stated, fails: with the integer year 2^63 the create raises
    at the commit, and there is nothing to read back under id 1. *)
Lemma create_refused_by_year :
  @scalars ascii_runtime (post far_future_form []) =
    inr (str "Dune", str "Frank Herbert", 2 ^ 63, str "desc") /\
  @add_book ascii_runtime (post far_future_form []) empty_world =
    (Raise OverflowError, empty_world) /\
  book_detail 1 empty_world = (Raise NotFound, empty_world).
Proof. repeat split; vm_compute; reflexivity. Qed.

(** C2, as stated, fails: the upload [a..b.jpg] is stored under the
    reference [images/uploads/a..b.jpg], which contains [..]. *)
Lemma reference_keeps_inner_dots :
  @add_book ascii_runtime (post dune_form (upload "a..b.jpg")) empty_world =
    (Return (redirect url_index),
     mkWorld {[ 1 := set_cover_image (str "images/uploads/a..b.jpg") dune ]}
             {[ str "static/images/uploads/a..b.jpg" := jpeg_bytes ]}) /\
  contains (str "..") (str "images/uploads/a..b.jpg") = true.
Proof. split; vm_compute; reflexivity. Qed.

(** The adversarial name of the specification is stored as a plain entry
    of the upload directory. *)
Example passwd_upload :
  @add_book ascii_runtime (post dune_form (upload "../../etc/passwd"))
            empty_world =
    (Return (redirect url_index),
     mkWorld {[ 1 := set_cover_image (str "images/uploads/etc_passwd") dune ]}
             {[ str "static/images/uploads/etc_passwd" := jpeg_bytes ]}) /\
  contains (str "..") (str "images/uploads/etc_passwd") = false.
Proof. split; vm_compute; reflexivity. Qed.

(** C7, as stated, fails: id 1 is assigned to Dune, Dune is deleted, and
    the next book created receives id 1 again. *)
Lemma rowid_reused_after_delete :
  @add_book ascii_runtime (post dune_form []) empty_world =
    (Return (redirect url_index), dune_world) /\
  delete_book 1 dune_world = (Return (redirect url_index), empty_world) /\
  @add_book ascii_runtime (post emma_form []) empty_world =
    (Return (redirect url_index), mkWorld {[ 1 := emma ]} ∅).
Proof. repeat split; vm_compute; reflexivity. Qed.

(** C6, as stated, fails: all four scalars are there and the year is an
    integer, yet the create is refused, because the cover sent with them
    makes the body longer than the limit. *)
Lemma create_refused_despite_scalars :
  @scalars ascii_runtime big_post =
    inr (str "Dune", str "Frank Herbert", 1965, str "desc") /\
  @add_book ascii_runtime big_post empty_world =
    (Raise RequestEntityTooLarge, empty_world).
Proof.
  split.
  - reflexivity.
  - rewrite add_book_run. reflexivity.
Qed.

(** All four scalars, an integer year and a body of 600000 bytes: the
    form parser of Werkzeug 3.1 refuses the title, which is longer than
    it keeps in memory. *)
Example long_field_refused :
  content_length long_title_post <= MAX_CONTENT_LENGTH /\
  @add_book ascii_runtime long_title_post empty_world =
    (Raise RequestEntityTooLarge, empty_world).
Proof.
  split; [unfold MAX_CONTENT_LENGTH, long_title_post; cbn; lia|].
  rewrite add_book_run. vm_compute. reflexivity.
Qed.

(** C8, as stated, fails: the upload named [..] has a non-empty name,
    yet nothing of it is written: no name is left to save it under, and
    [save] raises. *)
Lemma dotdot_upload_not_written :
  cover_upload (post dune_form (upload "..")) =
    Some (mkFileStorage (str "..") jpeg_bytes) /\
  @add_book ascii_runtime (post dune_form (upload "..")) empty_world =
    (Raise IsADirectoryError, empty_world).
Proof. split; vm_compute; reflexivity. Qed.

(** A name of 256 letters is longer than the file system takes: [save]
    raises and nothing is written. *)
Example long_name_not_written :
  @add_book ascii_runtime
    (post dune_form
       [(str "cover_image",
         mkFileStorage (List.repeat (chr "a") 256) jpeg_bytes)])
    empty_world =
    (Raise OSError, empty_world).
Proof. vm_compute; reflexivity. Qed.

(** C10, as stated, fails: an upload of non-empty name, [..], with a
    year that is not an integer: the request fails and no file is left
    behind. *)
Lemma dotdot_upload_with_bad_year :
  cover_upload (post undated_form (upload "..")) =
    Some (mkFileStorage (str "..") jpeg_bytes) /\
  @py_int ascii_runtime (str "unknown") = None /\
  @add_book ascii_runtime (post undated_form (upload "..")) empty_world =
    (Raise IsADirectoryError, empty_world).
Proof. repeat split; vm_compute; reflexivity. Qed.


(** Dune is created from a form whose file field was left empty. *)
Lemma no_upload_default_cover_witness :
  cover_upload (post dune_form no_file_selected) = None /\
  disk (@add_book ascii_runtime (post dune_form no_file_selected)
          empty_world).2 = ∅ /\
  @add_book ascii_runtime (post dune_form no_file_selected) empty_world =
    (Return (redirect url_index), dune_world).
Proof.
  destruct (@no_upload_default_cover ascii_runtime
              (post dune_form no_file_selected) empty_world eq_refl)
    as (Hdisk & _ & Hcreated).
  split; [reflexivity|]. split; [exact Hdisk|].
  exact (Hcreated (str "Dune") (str "Frank Herbert") 1965 (str "desc")
           eq_refl small_body eq_refl eq_refl eq_refl).
Defined.


(** A create without a usable year, and the create of Dune. *)
Lemma create_validation_witness :
  (exists e w',
     @add_book ascii_runtime (post undated_form []) empty_world =
       (Raise e, w') /\
     table w' = ∅ /\
     (1024 <= MAX_CONTENT_LENGTH ->
      @form_parser_accepts ascii_runtime (post undated_form []) = true ->
      @upload_storable ascii_runtime (post undated_form []) = true ->
      validation_error e)) /\
  (exists w',
     @add_book ascii_runtime (post dune_form []) empty_world =
       (Return (redirect url_index), w') /\
     table w' = {[ 1 := dune ]}).
Proof.
  split.
  - apply (@create_validation ascii_runtime (post undated_form []) empty_world
             eq_refl).
    right. exists (str "unknown"). split; reflexivity.
  - exact (proj2 (@create_validation ascii_runtime (post dune_form [])
                    empty_world eq_refl)
             (str "Dune") (str "Frank Herbert") 1965 (str "desc")
             eq_refl eq_refl small_body eq_refl eq_refl).
Defined.

(** With Dune stored under id 1, the next id is 2; once Dune is deleted
    it is 1 again, and 1 is the id a create is then given. *)
Lemma rowid_assignment_witness :
  next_rowid (table dune_world) = 2 /\
  (forall i,
     table (@add_book ascii_runtime (post emma_form []) dune_world).2 !! i <>
     table dune_world !! i ->
     i = next_rowid (table dune_world) /\ 1 <= i /\
     table dune_world !! i = None /\
     (forall j, is_Some (table dune_world !! j) -> j < i) /\
     (i = 1 \/ is_Some (table dune_world !! (i - 1))) /\
     exists b,
       table (@add_book ascii_runtime (post emma_form []) dune_world).2 !! i =
         Some b /\ id b = Some i) /\
  table (delete_book 1 dune_world).2 !! 1 = None /\
  next_rowid (table (delete_book 1 dune_world).2) = 1 /\
  (forall request' i,
     table (@add_book ascii_runtime request' (delete_book 1 dune_world).2).2
       !! i <>
     table (delete_book 1 dune_world).2 !! i ->
     i = 1).
Proof.
  assert (forall j, is_Some (table dune_world !! j) -> j = 1) as Honly.
  { intros j [b Hj]. unfold dune_world in Hj. cbn [table] in Hj.
    by apply lookup_singleton_Some in Hj as [<- _]. }
  destruct (@rowid_assignment ascii_runtime (post emma_form []) 1 dune_world
              rows_keyed_dune) as (Hnew & _ & _ & _ & _ & _ & Hreuse).
  { intros j Hj. apply Honly in Hj. lia. }
  split; [reflexivity|]. split; [exact Hnew|].
  apply Hreuse.
  - exists dune. reflexivity.
  - intros j Hj. apply Honly in Hj. lia.
  - by left.
Defined.

(** An executable is not an allowed file, and is saved all the same. *)
Lemma any_extension_saved_witness :
  @allowed_file ascii_runtime (str "malware.exe") = false /\
  disk (@add_book ascii_runtime (post dune_form (upload "malware.exe"))
          empty_world).2
    !! str "static/images/uploads/malware.exe" = Some jpeg_bytes.
Proof.
  split; [reflexivity|].
  exact (proj1 (proj2 (@any_extension_saved ascii_runtime
            (post dune_form (upload "malware.exe")) empty_world
            (mkFileStorage (str "malware.exe") jpeg_bytes) false
            eq_refl small_body eq_refl eq_refl eq_refl)) eq_refl).
Defined.

Lemma big_file_length :
  Z.of_nat (length (stream big_file)) = MAX_CONTENT_LENGTH + 1.
Proof.
  unfold big_file. cbn [stream]. rewrite List.repeat_length.
  apply Z2Nat.id. unfold MAX_CONTENT_LENGTH. lia.
Qed.

(** A cover of 20 MiB and one byte. *)
Lemma oversized_upload_refused_witness :
  MAX_CONTENT_LENGTH < Z.of_nat (length (stream big_file)) /\
  @add_book ascii_runtime big_post empty_world =
    (Raise RequestEntityTooLarge, empty_world) /\
  @edit_book ascii_runtime big_post 1 dune_world =
    (Raise RequestEntityTooLarge, dune_world).
Proof.
  assert (MAX_CONTENT_LENGTH < Z.of_nat (length (stream big_file))) as Hbig
    by (rewrite big_file_length; lia).
  assert (uploads_within_body big_post) as Hbody.
  { unfold uploads_within_body, big_post. cbn [files content_length].
    constructor; [|constructor]. cbn [snd]. rewrite big_file_length. lia. }
  split; [exact Hbig|].
  destruct (@oversized_upload_refused ascii_runtime big_post empty_world
              (str "cover_image") big_file eq_refl (or_introl eq_refl)
              Hbig Hbody) as [Hadd _].
  destruct (@oversized_upload_refused ascii_runtime big_post dune_world
              (str "cover_image") big_file eq_refl (or_introl eq_refl)
              Hbig Hbody) as [_ Hedit].
  split; [exact Hadd|]. apply Hedit. exists dune. reflexivity.
Defined.

(** A cover is sent with a form whose year reads [unknown]. *)
Lemma failed_create_leaves_file_witness :
  exists e,
    @add_book ascii_runtime (post undated_form (upload "dune.jpg")) empty_world =
      (Raise e,
       mkWorld ∅ {[ str "static/images/uploads/dune.jpg" := jpeg_bytes ]}) /\
    validation_error e /\
    inside_uploads (str "static/images/uploads/dune.jpg") = true.
Proof.
  refine (@failed_create_leaves_file ascii_runtime
            (post undated_form (upload "dune.jpg")) empty_world
            (mkFileStorage (str "dune.jpg") jpeg_bytes)
            eq_refl small_body eq_refl eq_refl eq_refl _).
  exists (str "unknown"). split; reflexivity.
Defined.

(** * Further properties of the handlers *)

Tactic Notation "fields" :=
  cbn [id title author year description cover_image fst snd table disk negb].
Tactic Notation "fields" "in" hyp(Hyp) :=
  cbn [id title author year description cover_image fst snd table disk negb]
    in Hyp.

Section Outcomes.
Context `{Runtime}.

(** The upload is saved and then the row is written or not: the three
    worlds a create can end in. *)
Lemma add_book_world (request : Request) (w : World) :
  (add_book request w).2 = w \/
  (cover_upload request = None /\
   exists t a y d,
     add_book request w =
       (Return (redirect url_index),
        mkWorld (<[next_rowid (table w) :=
                    mkBook (Some (next_rowid (table w))) t a y d
                           default_cover]> (table w))
                (disk w))) \/
  (exists f,
     cover_upload request = Some f /\ secure_filename (filename f) <> [] /\
     ((exists e,
         add_book request w =
           (Raise e,
            mkWorld (table w) (<[upload_path f := stream f]> (disk w)))) \/
      exists t a y d,
        add_book request w =
          (Return (redirect url_index),
           mkWorld (<[next_rowid (table w) :=
                       mkBook (Some (next_rowid (table w))) t a y d
                              (upload_reference f)]> (table w))
                   (<[upload_path f := stream f]> (disk w))))).
Proof.
  rewrite add_book_run.
  destruct (negb (is_POST (method request))); [by left|].
  destruct (body_refused request); [by left|].
  unfold create_with.
  destruct (cover_upload request) as [f|].
  - destruct (upload_error f) as [e|] eqn:Es; [by left|].
    apply upload_error_None, name_storable_nonempty in Es.
    right. right. exists f. split; [done|]. split; [done|].
    destruct (scalars request) as [e|[[[t a] y] d]].
    + left. by exists e.
    + destruct (fits_INTEGER y).
      * right. by exists t, a, y, d.
      * left. by exists OverflowError.
  - destruct (scalars request) as [e|[[[t a] y] d]]; [by left|].
    destruct (fits_INTEGER y); [|by left].
    right. left. split; [done|]. by exists t, a, y, d.
Qed.

(** An update ends in the world it started in, or saves the upload, or
    writes the row as well. *)
Lemma edit_book_world (request : Request) (book_id : Z) (w : World) :
  (edit_book request book_id w).2 = w \/
  exists b t a y d,
    table w !! book_id = Some b /\
    is_POST (method request) = true /\
    scalars request = inr (t, a, y, d) /\
    ((cover_upload request = None /\
      edit_book request book_id w =
        update_row (mkBook (id b) t a y d (cover_image b)) w) \/
     exists f,
       cover_upload request = Some f /\ secure_filename (filename f) <> [] /\
       edit_book request book_id w =
         update_row (mkBook (id b) t a y d (upload_reference f))
           (mkWorld (table w) (<[upload_path f := stream f]> (disk w)))).
Proof.
  rewrite edit_book_run.
  destruct (table w !! book_id) as [b|] eqn:Eb; [|by left].
  destruct (is_POST (method request)) eqn:Ep; cbn [negb]; [|by left].
  destruct (body_refused request); [by left|].
  destruct (scalars request) as [e|[[[t a] y] d]]; [by left|]. cbn zeta.
  destruct (cover_upload request) as [f|].
  - destruct (upload_error f) as [e|] eqn:Es; [by left|].
    apply upload_error_None, name_storable_nonempty in Es.
    right. exists b, t, a, y, d. do 3 (split; [done|]).
    right. exists f. by unfold set_cover_image.
  - right. exists b, t, a, y, d. do 3 (split; [done|]). by left.
Qed.

Lemma add_book_Raise (request : Request) (w w' : World) (e : Exception) :
  add_book request w = (Raise e, w') -> table w' = table w.
Proof.
  intros Hadd.
  destruct (add_book_world request w)
    as [Hw|[(_ & t & a & y & d & Hr)|(f & _ & _ & [(e' & Hr)|(t & a & y & d & Hr)])]];
    rewrite Hadd in *; cbn [snd] in *; simplify_eq; done.
Qed.

Lemma edit_book_Raise (request : Request) (book_id : Z) (w w' : World)
    (e : Exception) :
  edit_book request book_id w = (Raise e, w') ->
  table w' = table w /\ (e <> OverflowError -> w' = w).
Proof.
  rewrite edit_book_run.
  destruct (table w !! book_id) as [b|]; [|by intros [= _ <-]].
  destruct (negb (is_POST (method request))); [done|].
  destruct (body_refused request);
    [by intros [= _ <-]|].
  destruct (scalars request) as [e'|[[[t a] y] d]]; [by intros [= _ <-]|].
  cbn zeta. unfold update_row, set_cover_image. fields.
  destruct (cover_upload request) as [f|].
  - destruct (upload_error f); [by intros [= _ <-]|].
    destruct (fits_INTEGER y); [done|]. by intros [= <- <-].
  - destruct (fits_INTEGER y); [done|]. by intros [= <- <-].
Qed.

(** X1. A handler that raises has written no row: the table is as it
    was. For [delete_book] and [book_detail] the files are as they were
    too, and so they are for [edit_book], which reads its form before it
    saves the upload, unless what it raises is the [OverflowError] of
    the commit. *)
Theorem raise_keeps_table (request : Request) (book_id : Z) (w w' : World)
    (e : Exception) :
  (add_book request w = (Raise e, w') -> table w' = table w) /\
  (edit_book request book_id w = (Raise e, w') ->
   table w' = table w /\ (e <> OverflowError -> w' = w)) /\
  (delete_book book_id w = (Raise e, w') -> w' = w) /\
  (book_detail book_id w = (Raise e, w') -> w' = w).
Proof.
  split; [apply add_book_Raise|]. split; [apply edit_book_Raise|]. split.
  - rewrite delete_book_run.
    by destruct (table w !! book_id); [|intros [= _ <-]].
  - rewrite book_detail_run.
    by destruct (table w !! book_id); [|intros [= _ <-]].
Qed.

(** X2. An update changes no row other than the one it names. *)
Theorem edit_book_other_rows (request : Request) (book_id : Z) (w : World)
    (i : Z) :
  rows_keyed (table w) ->
  i <> book_id ->
  table (edit_book request book_id w).2 !! i = table w !! i.
Proof.
  intros Hk Hi.
  destruct (edit_book_effect request book_id w)
    as [_ [He|(b & j & t & a & y & d & _ & Hb & Hj & He)]]; rewrite He;
    [done|].
  assert (j = book_id) as -> by (specialize (Hk _ _ Hb); congruence).
  by rewrite lookup_insert_ne.
Qed.

(** X3. Sending the same update twice leaves the world the first one
    left. *)
Theorem edit_book_idempotent (request : Request) (book_id : Z) (w : World) :
  (edit_book request book_id (edit_book request book_id w).2).2 =
  (edit_book request book_id w).2.
Proof.
  rewrite (edit_book_run request book_id w).
  destruct (table w !! book_id) as [b|] eqn:Eb;
    [|fields; by rewrite edit_book_run, Eb].
  destruct (is_POST (method request)) eqn:Ep; fields;
    [|by rewrite edit_book_run, Eb, Ep].
  destruct (body_refused request) eqn:El;
    [fields; by rewrite edit_book_run, Eb, Ep, El|].
  destruct (scalars request) as [e|[[[t a] y] d]] eqn:Es;
    [fields; by rewrite edit_book_run, Eb, Ep, El, Es|].
  cbn zeta. unfold update_row, set_cover_image. fields.
  destruct (cover_upload request) as [f|] eqn:Ec.
  - destruct (upload_error f) as [e|] eqn:Ef;
      [fields; by rewrite edit_book_run, Eb, Ep, El, Es, Ec, Ef|].
    destruct (fits_INTEGER y) eqn:Ey.
    + destruct (id b) as [j|] eqn:Ej; rewrite edit_book_run; fields.
      * destruct (decide (j = book_id)) as [->|Hj].
        -- rewrite lookup_insert_eq, Ep, El, Es, Ec, Ef.
           unfold update_row, set_cover_image. fields. rewrite Ey. fields.
           by rewrite !insert_insert_eq.
        -- rewrite lookup_insert_ne, Eb, Ep, El, Es, Ec, Ef by done.
           unfold update_row, set_cover_image. fields. rewrite Ey, Ej.
           fields. by rewrite !insert_insert_eq.
      * rewrite Eb, Ep, El, Es, Ec, Ef.
        unfold update_row, set_cover_image. fields. rewrite Ey, Ej.
        fields. by rewrite insert_insert_eq.
    + rewrite edit_book_run; fields. rewrite Eb, Ep, El, Es, Ec, Ef.
      unfold update_row, set_cover_image. fields. rewrite Ey.
      fields. by rewrite insert_insert_eq.
  - destruct (fits_INTEGER y) eqn:Ey.
    + destruct (id b) as [j|] eqn:Ej; rewrite edit_book_run; fields.
      * destruct (decide (j = book_id)) as [->|Hj].
        -- rewrite lookup_insert_eq, Ep, El, Es, Ec.
           unfold update_row. fields. rewrite Ey. fields.
           by rewrite insert_insert_eq.
        -- rewrite lookup_insert_ne, Eb, Ep, El, Es, Ec by done.
           unfold update_row. fields. rewrite Ey, Ej.
           fields. by rewrite insert_insert_eq.
      * rewrite Eb, Ep, El, Es, Ec.
        unfold update_row. fields. by rewrite Ey, Ej.
    + rewrite edit_book_run; fields. rewrite Eb, Ep, El, Es, Ec.
      unfold update_row. fields. by rewrite Ey.
Qed.

End Outcomes.

(** ** Ids and files over several requests *)

Lemma next_rowid_insert (t : gmap Z Book) (b : Book) :
  next_rowid (<[next_rowid t := b]> t) = next_rowid t + 1.
Proof.
  unfold next_rowid at 1. rewrite max_rowid_insert by apply next_rowid_fresh.
  unfold next_rowid. lia.
Qed.

Lemma disk_insert_is_Some (d : gmap pystr (list byte)) (p q : pystr)
    (content : list byte) :
  is_Some (d !! q) -> is_Some (<[p := content]> d !! q).
Proof. intros Hq. apply lookup_insert_is_Some'. by right. Qed.

Section Sequences.
Context `{Runtime}.

(** A create that answers with a page or a redirect on a POST read its
    scalars, saved its upload and inserted the row. *)
Lemma add_book_Return (request : Request) (w w' : World) (r : Response) :
  is_POST (method request) = true ->
  add_book request w = (Return r, w') ->
  exists t a y d,
    scalars request = inr (t, a, y, d) /\
    upload_storable request = true /\
    content_length request <= MAX_CONTENT_LENGTH /\
    r = redirect url_index /\
    w' = mkWorld (<[next_rowid (table w) :=
                     mkBook (Some (next_rowid (table w))) t a y d
                            (resolved_cover request)]> (table w))
                 (match cover_upload request with
                  | Some f => <[upload_path f := stream f]> (disk w)
                  | None => disk w
                  end).
Proof.
  intros Hpost. rewrite add_book_run, Hpost. cbn [negb].
  destruct (body_refused request) eqn:El; [done|].
  apply orb_false_elim in El as [El _]. apply Z.ltb_ge in El.
  unfold create_with, upload_storable, resolved_cover.
  destruct (cover_upload request) as [f|].
  - destruct (upload_error f) as [e|] eqn:Es; [done|].
    apply upload_error_None in Es.
    destruct (scalars request) as [e|[[[t a] y] d]]; [done|].
    destruct (fits_INTEGER y); [|done].
    intros [= <- <-]. by exists t, a, y, d.
  - destruct (scalars request) as [e|[[[t a] y] d]]; [done|].
    destruct (fits_INTEGER y); [|done].
    intros [= <- <-]. by exists t, a, y, d.
Qed.

(** X4. A create that succeeds gives the new book an id of at least 1,
    and the create after it will give the following id. *)
Theorem create_advances_rowid (request : Request) (w w' : World)
    (r : Response) :
  is_POST (method request) = true ->
  add_book request w = (Return r, w') ->
  1 <= next_rowid (table w) /\
  is_Some (table w' !! next_rowid (table w)) /\
  next_rowid (table w') = next_rowid (table w) + 1.
Proof.
  intros Hpost Hadd.
  split; [pose proof (max_rowid_nonneg (table w)); unfold next_rowid; lia|].
  destruct (add_book_Return _ _ _ _ Hpost Hadd)
    as (t & a & y & d & _ & _ & _ & _ & ->). cbn [table].
  split; [rewrite lookup_insert_eq; by eexists|apply next_rowid_insert].
Qed.

(** X5. A delete changes no file. Deleting the book a create has just
    added gives back the table from before the create, while the cover
    uploaded with it stays in the upload directory. *)
Theorem create_then_delete (request : Request) (w w' : World) (r : Response) :
  is_POST (method request) = true ->
  add_book request w = (Return r, w') ->
  (forall book_id w0, disk (delete_book book_id w0).2 = disk w0) /\
  delete_book (next_rowid (table w)) w' =
    (Return (redirect url_index), mkWorld (table w) (disk w')) /\
  (forall f, cover_upload request = Some f ->
             disk w' !! upload_path f = Some (stream f)).
Proof.
  intros Hpost Hadd. split; [|split].
  - intros book_id w0. rewrite delete_book_run.
    destruct (table w0 !! book_id) as [b|]; [|done]. by destruct (id b).
  - destruct (add_book_Return _ _ _ _ Hpost Hadd)
      as (t & a & y & d & _ & _ & _ & _ & ->).
    rewrite delete_book_run. fields. rewrite lookup_insert_eq. fields.
    by rewrite delete_insert_id by apply next_rowid_fresh.
  - intros f Hf.
    destruct (add_book_Return _ _ _ _ Hpost Hadd)
      as (t & a & y & d & _ & _ & _ & _ & ->).
    rewrite Hf. fields. apply lookup_insert_eq.
Qed.

(** X6. Two creates whose uploads sanitise to the same name: the second
    replaces the file of the first, and both books keep the one
    reference, which now shows the second cover. *)
Theorem same_name_overwrites (request1 request2 : Request)
    (f1 f2 : FileStorage) (w w1 w2 : World) (r1 r2 : Response) :
  is_POST (method request1) = true ->
  is_POST (method request2) = true ->
  cover_upload request1 = Some f1 ->
  cover_upload request2 = Some f2 ->
  secure_filename (filename f1) = secure_filename (filename f2) ->
  add_book request1 w = (Return r1, w1) ->
  add_book request2 w1 = (Return r2, w2) ->
  disk w2 !! upload_path f1 = Some (stream f2) /\
  exists b1 b2,
    table w2 !! next_rowid (table w) = Some b1 /\
    table w2 !! (next_rowid (table w) + 1) = Some b2 /\
    cover_image b1 = upload_reference f1 /\
    cover_image b2 = upload_reference f1.
Proof.
  intros Hp1 Hp2 Hf1 Hf2 Hname Hadd1 Hadd2.
  destruct (add_book_Return _ _ _ _ Hp1 Hadd1)
    as (t1 & a1 & y1 & d1 & _ & _ & _ & _ & ->).
  destruct (add_book_Return _ _ _ _ Hp2 Hadd2)
    as (t2 & a2 & y2 & d2 & _ & _ & _ & _ & ->).
  unfold resolved_cover. rewrite Hf1, Hf2. fields.
  assert (upload_path f2 = upload_path f1) as ->
    by (unfold upload_path; by rewrite Hname).
  assert (upload_reference f2 = upload_reference f1) as ->
    by (unfold upload_reference; by rewrite Hname).
  split; [apply lookup_insert_eq|].
  rewrite next_rowid_insert.
  eexists _, _. split; [|split; [apply lookup_insert_eq|]].
  - rewrite lookup_insert_ne by lia. apply lookup_insert_eq.
  - done.
Qed.

(** One request leaves every file that is not an entry of the upload
    directory as it was, and removes none. *)
Lemma perform_files (op : Operation) (w : World) (p : pystr) :
  (inside_uploads p = false -> disk (perform w op) !! p = disk w !! p) /\
  (is_Some (disk w !! p) -> is_Some (disk (perform w op) !! p)).
Proof.
  assert (forall f, secure_filename (filename f) <> [] ->
            (inside_uploads p = false ->
             <[upload_path f := stream f]> (disk w) !! p = disk w !! p) /\
            (is_Some (disk w !! p) ->
             is_Some (<[upload_path f := stream f]> (disk w) !! p))) as Hsave.
  { intros f Hne. split; [|apply disk_insert_is_Some].
    intros Hout. destruct (decide (upload_path f = p)) as [<-|Hp];
      [|by rewrite lookup_insert_ne].
    unfold upload_path in Hout.
    rewrite upload_inside in Hout; [done|apply secure_filename_sanitised|done]. }
  destruct op as [request|request i|i]; cbn [perform].
  - destruct (add_book_effect request w) as [[Hd|(f & _ & Hne & Hd)] _];
      rewrite Hd; [done|by apply Hsave].
  - destruct (edit_book_effect request i w) as [[Hd|(f & _ & Hne & Hd)] _];
      rewrite Hd; [done|by apply Hsave].
  - rewrite delete_book_run. destruct (table w !! i) as [b|]; [|done].
    by destruct (id b).
Qed.

(** X7. Over any sequence of creates, updates and deletes, a file that
    is not an entry of the upload directory is never changed, and no
    file is ever removed. *)
Theorem run_files (ops : list Operation) (w : World) (p : pystr) :
  (inside_uploads p = false -> disk (run ops w) !! p = disk w !! p) /\
  (is_Some (disk w !! p) -> is_Some (disk (run ops w) !! p)).
Proof.
  unfold run. revert w. induction ops as [|op ops IH]; intros w; [done|].
  cbn [fold_left]. destruct (IH (perform w op)) as [IHout IHkeep].
  destruct (perform_files op w p) as [Hout Hkeep]. split.
  - intros Hp. by rewrite IHout, Hout.
  - intros Hp. by apply IHkeep, Hkeep.
Qed.

Lemma cover_on_disk_later (w w' : World) (b : Book) :
  (forall p, is_Some (disk w !! p) -> is_Some (disk w' !! p)) ->
  cover_on_disk w b -> cover_on_disk w' b.
Proof.
  intros Hkeep [Hdef|(name & Hne & Hs & Hc & Hfile)]; [by left|].
  right. exists name. eauto.
Qed.

Lemma cover_on_disk_same_cover (w : World) (b b' : Book) :
  cover_image b' = cover_image b -> cover_on_disk w b -> cover_on_disk w b'.
Proof. unfold cover_on_disk. by intros ->. Qed.

Lemma upload_cover_on_disk (f : FileStorage) (w : World) (b : Book) :
  secure_filename (filename f) <> [] ->
  cover_image b = upload_reference f ->
  is_Some (disk w !! upload_path f) ->
  cover_on_disk w b.
Proof.
  intros Hne Hc Hfile. right. exists (secure_filename (filename f)).
  split; [done|]. split; [apply secure_filename_sanitised|]. split; [done|].
  unfold upload_path in Hfile.
  by rewrite os_path_join_sanitised in Hfile
    by (done || apply secure_filename_sanitised).
Qed.

Lemma perform_covers_on_disk (op : Operation) (w : World) :
  covers_on_disk w -> covers_on_disk (perform w op).
Proof.
  intros Hinv i b Hb.
  pose proof (fun p => proj2 (perform_files op w p)) as Hkeep.
  destruct op as [request|request j|j]; cbn [perform] in *.
  - destruct (add_book_world request w)
      as [Hw|[(_ & t & a & y & d & Hr)|(f & _ & Hne & [(e' & Hr)|(t & a & y & d & Hr)])]].
    + rewrite Hw in *. by eapply Hinv.
    + rewrite Hr in *. fields. fields in Hb.
      destruct (decide (next_rowid (table w) = i)) as [<-|Hi].
      * rewrite lookup_insert_eq in Hb. injection Hb as <-. by left.
      * rewrite lookup_insert_ne in Hb by done.
        eapply cover_on_disk_later; [exact Hkeep|by eapply Hinv].
    + rewrite Hr in *. fields. fields in Hb.
      eapply cover_on_disk_later; [exact Hkeep|by eapply Hinv].
    + rewrite Hr in *. fields. fields in Hb.
      destruct (decide (next_rowid (table w) = i)) as [<-|Hi].
      * rewrite lookup_insert_eq in Hb. injection Hb as <-.
        eapply upload_cover_on_disk; [done|done|]. fields.
        rewrite lookup_insert_eq. by eexists.
      * rewrite lookup_insert_ne in Hb by done.
        eapply cover_on_disk_later; [exact Hkeep|by eapply Hinv].
  - destruct (edit_book_world request j w)
      as [Hw|(b0 & t & a & y & d & Hb0 & _ & _ & Hcase)].
    { rewrite Hw in *. by eapply Hinv. }
    destruct Hcase as [[_ He]|(f & _ & Hne & He)]; rewrite He in Hb |- *.
    + match type of Hb with context [update_row ?b' ?w0] =>
        pose proof (update_row_disk b' w0) as Hd;
        destruct (update_row_table b' w0) as [Ht|(k & Hk & Ht)]
      end; rewrite Ht in Hb.
      * apply (cover_on_disk_later w); [|exact (Hinv _ _ Hb)].
        intros p. by rewrite Hd.
      * destruct (decide (k = i)) as [<-|Hi].
        -- rewrite lookup_insert_eq in Hb. injection Hb as <-.
           apply (cover_on_disk_later w); [intros p; by rewrite Hd|].
           apply (cover_on_disk_same_cover w b0); [done|].
           exact (Hinv _ _ Hb0).
        -- rewrite lookup_insert_ne in Hb by done.
           apply (cover_on_disk_later w); [|exact (Hinv _ _ Hb)].
           intros p. by rewrite Hd.
    + match type of Hb with context [update_row ?b' ?w0] =>
        pose proof (update_row_disk b' w0) as Hd;
        destruct (update_row_table b' w0) as [Ht|(k & Hk & Ht)]
      end; rewrite Ht in Hb; fields in Hb; fields in Hd.
      * apply (cover_on_disk_later w); [|exact (Hinv _ _ Hb)].
        intros p Hp. rewrite Hd. by apply disk_insert_is_Some.
      * destruct (decide (k = i)) as [<-|Hi].
        -- rewrite lookup_insert_eq in Hb. injection Hb as <-.
           eapply upload_cover_on_disk; [done|done|].
           rewrite Hd, lookup_insert_eq. by eexists.
        -- rewrite lookup_insert_ne in Hb by done.
           apply (cover_on_disk_later w); [|exact (Hinv _ _ Hb)].
           intros p Hp. rewrite Hd. by apply disk_insert_is_Some.
  - rewrite delete_book_run in *.
    destruct (table w !! j) as [b0|]; [|by eapply Hinv].
    fields. fields in Hb. destruct (id b0) as [k|]; [|by eapply Hinv].
    fields. fields in Hb. apply lookup_delete_Some in Hb as [_ Hb].
    by eapply Hinv.
Qed.

(** X8. In every world reached from the empty one, and more generally
    from any world where it holds, the cover of every stored book is the
    default one or the reference of a file that is in the upload
    directory: no request leaves a reference without its file. *)
Theorem run_covers_on_disk (ops : list Operation) (w : World) :
  covers_on_disk (run ops empty_world) /\
  (covers_on_disk w -> covers_on_disk (run ops w)).
Proof.
  assert (forall w0, covers_on_disk w0 -> covers_on_disk (run ops w0)) as Hrun.
  { unfold run. induction ops as [|op ops IH]; intros w0 Hinv; [done|].
    cbn [fold_left]. by apply IH, perform_covers_on_disk. }
  split; [|apply Hrun]. apply Hrun. intros i b Hb.
  unfold empty_world in Hb. fields in Hb. by rewrite lookup_empty in Hb.
Qed.

End Sequences.

(** ** The book list, the routing and the file names *)

(** X9. The index view hands its template exactly the stored books, as
    many entries as there are rows, and changes nothing. *)
Theorem index_lists_books (w : World) :
  exists books,
    index w = (Return books, w) /\
    (forall b, b ∈ books <-> exists i, table w !! i = Some b) /\
    length books = size (table w).
Proof.
  eexists. split; [reflexivity|]. split.
  - intros b. rewrite list_elem_of_fmap. split.
    + intros ([i b'] & -> & Hin).
      rewrite merge_sort_Permutation in Hin.
      apply elem_of_map_to_list in Hin. by exists i.
    + intros [i Hi]. exists (i, b). split; [done|].
      rewrite merge_sort_Permutation. by apply elem_of_map_to_list.
  - rewrite length_fmap, merge_sort_Permutation. apply length_map_to_list.
Qed.

Section Routing.
Context `{Runtime}.

Lemma respond_world {A} (page_of : A -> Z * Page)
    (result : Outcome A * World) :
  (respond page_of result).2 = result.2.
Proof. destruct result as [[a|[]] w]; done. Qed.

(** The world after the view a request was routed to. *)
Lemma dispatch_request_world (route : Route) (request : Request) (w : World) :
  (dispatch_request route request w).2 =
  if negb (route_allows route (method request)) then w
  else match route with
       | route_index | route_book_detail _ => w
       | route_add_book => (add_book request w).2
       | route_edit_book book_id => (edit_book request (Z.of_N book_id) w).2
       | route_delete_book book_id => (delete_book (Z.of_N book_id) w).2
       end.
Proof.
  unfold dispatch_request.
  destruct (negb (route_allows route (method request))); [done|].
  destruct route; rewrite respond_world; [done| |done..].
  rewrite book_detail_run. by destruct (table w !! Z.of_N book_id).
Qed.

(** X10. A GET or a HEAD changes neither the table nor the files,
    whatever the URL; sent to the delete URL it is answered 405 and the
    view is not called. *)
Theorem safe_methods_read_only (route : Route) (request : Request)
    (w : World) :
  is_POST (method request) = false ->
  (dispatch_request route request w).2 = w /\
  (forall book_id, route = route_delete_book book_id ->
     dispatch_request route request w = ((405, error_page), w)).
Proof.
  intros Hget. split.
  - rewrite dispatch_request_world.
    destruct (negb (route_allows route (method request))) eqn:Ea; [done|].
    destruct route as [|i| |i|i]; [done|done| | |].
    + by rewrite add_book_run, Hget.
    + rewrite edit_book_run, Hget.
      by destruct (table w !! Z.of_N i).
    + by destruct (method request).
  - intros book_id ->. unfold dispatch_request.
    by destruct (method request).
Qed.

(** X11. Whatever the URL and the request, the table is changed only by
    a request that is answered with the redirect (302): after any other
    status every row is as it was. *)
Theorem table_changes_only_on_redirect (route : Route) (request : Request)
    (w : World) :
  (dispatch_request route request w).1.1 <> 302 ->
  table (dispatch_request route request w).2 = table w.
Proof.
  rewrite dispatch_request_world. unfold dispatch_request.
  destruct (negb (route_allows route (method request))); [done|].
  destruct route as [|i| |i|i].
  - done.
  - done.
  - destruct (add_book request w) as [[r|e] w'] eqn:Hadd.
    + destruct (is_POST (method request)) eqn:Hp.
      * destruct (add_book_Return _ _ _ _ Hp Hadd)
          as (t & a & y & d & _ & _ & _ & -> & _). done.
      * rewrite add_book_run, Hp in Hadd. by injection Hadd as _ <-.
    + intros _. by apply add_book_Raise in Hadd.
  - destruct (edit_book request (Z.of_N i) w) as [[r|e] w'] eqn:Hedit.
    + rewrite edit_book_run in Hedit.
      destruct (table w !! Z.of_N i) as [b|]; [|done].
      destruct (negb (is_POST (method request)));
        [by injection Hedit as _ <-|].
      destruct (body_refused request); [done|].
      destruct (scalars request) as [e|[[[t a] y] d]]; [done|].
      cbn zeta in Hedit. unfold update_row in Hedit.
      destruct (cover_upload request) as [f|];
        [destruct (upload_error f); [done|]|];
        (destruct (fits_INTEGER _); [|done]);
        by injection Hedit as <- _.
    + intros _. by apply edit_book_Raise in Hedit as [? _].
  - intros Hstatus. rewrite delete_book_run in *.
    destruct (table w !! Z.of_N i) as [b|]; [|done]. done.
Qed.

(** X12. A request for a book that is not stored, under an id of the
    INTEGER range, on the detail, edit or delete URL with a method the
    URL allows, is answered with the page of the 404 handler and status
    404, and changes nothing. *)
Theorem unknown_book_404_page (route : Route) (request : Request)
    (w : World) (book_id : N) :
  route = route_book_detail book_id \/ route = route_edit_book book_id \/
  route = route_delete_book book_id ->
  route_allows route (method request) = true ->
  fits_INTEGER (Z.of_N book_id) = true ->
  table w !! Z.of_N book_id = None ->
  dispatch_request route request w =
    ((404, view_page (render_template "404.html" None)), w).
Proof.
  intros Hroute Hallow Hfit Hnone. unfold dispatch_request. rewrite Hallow.
  cbn [negb].
  destruct Hroute as [->|[->| ->]];
    by rewrite ?book_detail_run, ?edit_book_run, ?delete_book_run, Hnone, Hfit.
Qed.

End Routing.

Lemma rsplit_dot_no_dot (s : pystr) :
  char_in s (chr ".") = false -> rsplit_dot s = None.
Proof.
  unfold char_in. induction s as [|c s IH]; [done|]. cbn [List.existsb rsplit_dot].
  intros Hs. apply orb_false_elim in Hs as [Hc Hs].
  rewrite IH by done. rewrite N.eqb_sym in Hc. by rewrite Hc.
Qed.

Lemma rsplit_dot_last (stem ext : pystr) :
  char_in ext (chr ".") = false ->
  rsplit_dot (stem ++ chr "." :: ext) = Some ext.
Proof.
  intros Hext. induction stem as [|c stem IH]; cbn [app rsplit_dot].
  - by rewrite rsplit_dot_no_dot, N.eqb_refl.
  - by rewrite IH.
Qed.

(** X13. [allowed_file] looks at nothing but what follows the last dot
    of the name: whatever comes before it, other extensions included,
    the answer is whether the lower-cased last extension is one of the
    four allowed ones; a name without a dot is not allowed. *)
Theorem allowed_file_last_extension `{Runtime} (stem ext : pystr) :
  char_in ext (chr ".") = false ->
  allowed_file (stem ++ str "." ++ ext) =
    List.existsb (pystr_eqb (str_lower ext)) ALLOWED_EXTENSIONS /\
  allowed_file ext = false.
Proof.
  intros Hext. unfold allowed_file. split.
  - change (str "." ++ ext) with (chr "." :: ext).
    by rewrite rsplit_dot_last.
  - by rewrite rsplit_dot_no_dot.
Qed.

Lemma filter_forallb_id {A} (keep : A -> bool) (l : list A) :
  List.forallb keep l = true -> List.filter keep l = l.
Proof.
  induction l as [|x l IH]; [done|]. cbn [List.forallb List.filter].
  intros Hl. apply andb_prop in Hl as [-> Hl]. by rewrite IH.
Qed.

Lemma replace_char_absent (old new : codepoint) (s : pystr) :
  char_in s old = false -> replace_char old new s = s.
Proof.
  unfold char_in, replace_char. induction s as [|c s IH]; [done|].
  cbn [List.existsb List.map]. intros Hs.
  apply orb_false_elim in Hs as [Hc Hs].
  rewrite N.eqb_sym in Hc. by rewrite Hc, IH.
Qed.

Lemma split_from_no_space (cur s : pystr) :
  List.forallb (fun c => negb (is_ascii_space c)) s = true ->
  split_from cur s = match cur ++ s with [] => [] | _ => [cur ++ s] end.
Proof.
  revert cur. induction s as [|c s IH]; intros cur; cbn [List.forallb split_from].
  - intros _. rewrite app_nil_r. by destruct cur.
  - intros Hs. apply andb_prop in Hs as [Hc Hs].
    apply negb_true_iff in Hc. rewrite Hc, IH by done.
    by rewrite <- app_assoc.
Qed.

Lemma lstrip_kept (chars s : pystr) :
  char_in chars (List.hd 0%N s) = false -> lstrip chars s = s.
Proof. destruct s as [|c s]; [done|]. cbn [List.hd lstrip]. by intros ->. Qed.

Lemma rstrip_kept (chars s : pystr) :
  char_in chars (List.last s 0%N) = false -> rstrip chars s = s.
Proof.
  intros Hlast. unfold rstrip.
  rewrite lstrip_kept; [apply rev_involutive|].
  destruct s as [|c s _] using rev_ind; [done|].
  rewrite last_last in Hlast. by rewrite rev_app_distr.
Qed.

Lemma keep_is_ascii (c : codepoint) :
  filename_ascii_keep c = true -> (c <? 128)%N = true.
Proof.
  unfold filename_ascii_keep. intros Hc. apply N.ltb_lt.
  repeat (apply orb_prop in Hc as [Hc|Hc]);
    repeat (apply andb_prop in Hc as [? Hc]);
    repeat match goal with
           | Hle : (_ <=? _)%N = true |- _ => apply N.leb_le in Hle
           | Heq : (_ =? _)%N = true |- _ => apply N.eqb_eq in Heq
           end; lia.
Qed.

Lemma keep_not_space (c : codepoint) :
  filename_ascii_keep c = true -> negb (is_ascii_space c) = true.
Proof.
  unfold filename_ascii_keep, is_ascii_space. intros Hc.
  apply negb_true_iff, not_true_is_false. intros Hsp.
  repeat (apply orb_prop in Hc as [Hc|Hc]);
    repeat (apply andb_prop in Hc as [? Hc]);
    apply orb_prop in Hsp as [Hsp|Hsp];
    apply andb_prop in Hsp as [? ?];
    repeat match goal with
           | Hle : (_ <=? _)%N = true |- _ => apply N.leb_le in Hle
           | Heq : (_ =? _)%N = true |- _ => apply N.eqb_eq in Heq
           end; lia.
Qed.

(** X14. A name that is already sanitised, and that NFKD normalisation
    leaves alone, is returned unchanged by [secure_filename]: the upload
    is saved and referenced under the very name it was sent with. In
    particular sanitising a second time changes nothing. *)
Theorem secure_filename_clean `{Runtime} (name : pystr) :
  sanitised name = true ->
  normalize_NFKD name = name ->
  secure_filename name = name.
Proof.
  intros Hs Hnfkd. pose proof (sanitised_no_separator _ Hs) as Hsep.
  unfold sanitised in Hs.
  apply andb_prop in Hs as [Hs Hlast]. apply andb_prop in Hs as [Hkeep Hhead].
  apply negb_true_iff in Hhead, Hlast.
  unfold secure_filename, encode_ascii_ignore. rewrite Hnfkd.
  rewrite (filter_forallb_id (fun c => N.ltb c 128)).
  2:{ rewrite List.forallb_forall in *. intros c Hc.
      by apply keep_is_ascii, Hkeep. }
  rewrite replace_char_absent by done.
  unfold split. rewrite split_from_no_space.
  2:{ rewrite List.forallb_forall in *. intros c Hc.
      by apply keep_not_space, Hkeep. }
  cbn [app].
  replace (join (str "_") _) with name by (by destruct name).
  rewrite filter_forallb_id by done.
  unfold strip. by rewrite lstrip_kept, rstrip_kept.
Qed.

(** X15. The representation of a book shows its title and nothing
    else: two books have the same representation exactly when they have
    the same title. *)
Theorem Book_repr_title (b1 b2 : Book) :
  Book_repr b1 = Book_repr b2 <-> title b1 = title b2.
Proof.
  unfold Book_repr. split; [|by intros ->].
  intros Heq. apply app_inv_head in Heq. by apply app_inv_tail in Heq.
Qed.

(** ** The ids of a run *)

Lemma max_rowid_overwrite (t : gmap Z Book) (i : Z) (b0 b : Book) :
  t !! i = Some b0 -> max_rowid (<[i := b]> t) = max_rowid t.
Proof.
  intros Hi. rewrite <- (insert_delete_id t i b0) at 2 by done.
  rewrite <- (insert_delete_eq t i b).
  by rewrite !max_rowid_insert by apply lookup_delete_eq.
Qed.

Lemma max_rowid_delete (t : gmap Z Book) (i : Z) :
  max_rowid (delete i t) <= max_rowid t.
Proof.
  destruct (t !! i) as [b0|] eqn:Hi.
  - rewrite <- (insert_delete_id t i b0) at 2 by done.
    rewrite max_rowid_insert by apply lookup_delete_eq. lia.
  - by rewrite delete_id.
Qed.

Lemma perform_ids_up_to `{Runtime} (op : Operation) (w : World) (n : Z) :
  ids_up_to n (table w) -> ids_up_to (n + 1) (table (perform w op)).
Proof.
  intros (Hk & Hpos & Hmax).
  destruct op as [request|request j|j]; cbn [perform].
  - split; [by apply add_book_rows_keyed|].
    destruct (add_book_effect request w)
      as [_ [Ht|(_ & t & a & y & d & Ht)]]; rewrite Ht.
    { split; [done|lia]. }
    split.
    + intros i Hi. apply lookup_insert_is_Some in Hi as [<-|[_ Hi]];
        [|by apply Hpos].
      pose proof (max_rowid_nonneg (table w)). unfold next_rowid. lia.
    + rewrite max_rowid_insert by apply next_rowid_fresh.
      unfold next_rowid. lia.
  - split; [by apply edit_book_rows_keyed|].
    destruct (edit_book_effect request j w)
      as [_ [Ht|(b & i & t & a & y & d & _ & Hb & Hi & Ht)]]; rewrite Ht.
    { split; [done|lia]. }
    assert (i = j) as -> by (specialize (Hk _ _ Hb); congruence).
    split.
    + intros i Hi'. apply lookup_insert_is_Some in Hi' as [<-|[_ Hi']];
        apply Hpos; eauto.
    + rewrite (max_rowid_overwrite _ _ b) by done. lia.
  - rewrite delete_book_table by done.
    split; [by apply rows_keyed_delete|]. split.
    + intros i [b Hi]. apply lookup_delete_Some in Hi as [_ Hi].
      apply Hpos. eauto.
    + pose proof (max_rowid_delete (table w) j). lia.
Qed.

(** X16. After any sequence of creates, updates and deletes that starts
    with the empty table, every stored book carries the id it is stored
    under, and that id lies between 1 and the number of requests made. *)
Theorem run_ids_bounded `{Runtime} (ops : list Operation) (i : Z) (b : Book) :
  table (run ops empty_world) !! i = Some b ->
  id b = Some i /\ 1 <= i <= Z.of_nat (length ops).
Proof.
  assert (forall w n, ids_up_to n (table w) ->
            ids_up_to (n + Z.of_nat (length ops)) (table (run ops w))) as Hrun.
  { unfold run. induction ops as [|op ops IH]; intros w n Hinv.
    - cbn [length fold_left]. by rewrite Z.add_0_r.
    - cbn [fold_left]. rewrite length_cons, Nat2Z.inj_succ.
      replace (n + Z.succ (Z.of_nat (length ops)))
        with (n + 1 + Z.of_nat (length ops)) by lia.
      by apply IH, perform_ids_up_to. }
  destruct (Hrun empty_world 0) as (Hk & Hpos & Hmax).
  { split; [apply rows_keyed_empty|]. split; [|done].
    intros j [b' Hj]. unfold empty_world in Hj. fields in Hj.
    by rewrite lookup_empty in Hj. }
  intros Hb. split; [by apply Hk|].
  assert (is_Some (table (run ops empty_world) !! i)) as Hi by eauto.
  split; [by apply Hpos|].
  apply max_rowid_upper in Hi. lia.
Qed.

(** ** The further properties on the sample requests *)

(** An update with a cover and a year that reads [unknown] raises and
    leaves no file behind. *)
Lemma raise_keeps_table_witness :
  (@edit_book ascii_runtime (post undated_form (upload "dune.jpg")) 1
      dune_world).1 = Raise ValueError /\
  (@edit_book ascii_runtime (post undated_form (upload "dune.jpg")) 1
      dune_world).2 = dune_world.
Proof.
  split; [reflexivity|].
  apply (proj1 (proj2 (@raise_keeps_table ascii_runtime
           (post undated_form (upload "dune.jpg")) 1 dune_world
           (@edit_book ascii_runtime (post undated_form (upload "dune.jpg")) 1
              dune_world).2 ValueError))).
  - vm_compute. reflexivity.
  - discriminate.
Defined.

(** An update with a cover and the year 2^63: the cover is saved, the
    commit raises, and the row is as it was. *)
Example update_refused_after_save :
  @edit_book ascii_runtime (post far_future_form (upload "dune.jpg")) 1
    dune_world =
    (Raise OverflowError,
     mkWorld {[ 1 := dune ]}
             {[ str "static/images/uploads/dune.jpg" := jpeg_bytes ]}).
Proof. vm_compute; reflexivity. Qed.

(** With Dune and Emma stored, Emma is rewritten; Dune is as before. *)
Lemma edit_book_other_rows_witness :
  table (@edit_book ascii_runtime (post dune_form (upload "dune.jpg")) 2
           (@add_book ascii_runtime (post emma_form []) dune_world).2).2 !! 1 =
  Some dune.
Proof.
  rewrite (@edit_book_other_rows ascii_runtime
             (post dune_form (upload "dune.jpg")) 2
             (@add_book ascii_runtime (post emma_form []) dune_world).2 1).
  - reflexivity.
  - apply add_book_rows_keyed, rows_keyed_dune.
  - lia.
Defined.

Lemma dune_created :
  @add_book ascii_runtime (post dune_form []) empty_world =
    (Return (redirect url_index), dune_world).
Proof. vm_compute. reflexivity. Qed.

(** Dune receives id 1 and the next id is 2. *)
Lemma create_advances_rowid_witness :
  1 <= next_rowid (table empty_world) /\
  is_Some (table dune_world !! next_rowid (table empty_world)) /\
  next_rowid (table dune_world) = next_rowid (table empty_world) + 1.
Proof.
  exact (@create_advances_rowid ascii_runtime (post dune_form []) empty_world
           dune_world (redirect url_index) eq_refl dune_created).
Defined.

Lemma dune_with_cover_created :
  @add_book ascii_runtime (post dune_form (upload "dune.jpg")) empty_world =
    (Return (redirect url_index),
     mkWorld {[ 1 := set_cover_image (str "images/uploads/dune.jpg") dune ]}
             {[ str "static/images/uploads/dune.jpg" := jpeg_bytes ]}).
Proof. vm_compute. reflexivity. Qed.

(** Dune is created with a cover and deleted: the table is empty again
    and the cover is still there. *)
Lemma create_then_delete_witness :
  delete_book 1
    (mkWorld {[ 1 := set_cover_image (str "images/uploads/dune.jpg") dune ]}
             {[ str "static/images/uploads/dune.jpg" := jpeg_bytes ]}) =
    (Return (redirect url_index),
     mkWorld ∅ {[ str "static/images/uploads/dune.jpg" := jpeg_bytes ]}).
Proof.
  exact (proj1 (proj2 (@create_then_delete ascii_runtime
           (post dune_form (upload "dune.jpg")) empty_world _ _
           eq_refl dune_with_cover_created))).
Defined.

Lemma emma_with_same_cover_name :
  @add_book ascii_runtime (post emma_form (upload_png "my_cover.jpg"))
    (@add_book ascii_runtime (post dune_form (upload "my cover.jpg"))
       empty_world).2 =
    (Return (redirect url_index),
     (@add_book ascii_runtime (post emma_form (upload_png "my_cover.jpg"))
        (@add_book ascii_runtime (post dune_form (upload "my cover.jpg"))
           empty_world).2).2).
Proof. vm_compute. reflexivity. Qed.

Lemma dune_with_spaced_cover_name :
  @add_book ascii_runtime (post dune_form (upload "my cover.jpg")) empty_world =
    (Return (redirect url_index),
     (@add_book ascii_runtime (post dune_form (upload "my cover.jpg"))
        empty_world).2).
Proof. vm_compute. reflexivity. Qed.

(** [my cover.jpg] and [my_cover.jpg] are both saved as [my_cover.jpg]:
    the file holds the second upload. *)
Lemma same_name_overwrites_witness :
  disk (@add_book ascii_runtime (post emma_form (upload_png "my_cover.jpg"))
          (@add_book ascii_runtime (post dune_form (upload "my cover.jpg"))
             empty_world).2).2
    !! str "static/images/uploads/my_cover.jpg" = Some png_bytes.
Proof.
  exact (proj1 (@same_name_overwrites ascii_runtime
           (post dune_form (upload "my cover.jpg"))
           (post emma_form (upload_png "my_cover.jpg"))
           (mkFileStorage (str "my cover.jpg") jpeg_bytes)
           (mkFileStorage (str "my_cover.jpg") png_bytes)
           empty_world _ _ _ _ eq_refl eq_refl eq_refl eq_refl eq_refl
           dune_with_spaced_cover_name emma_with_same_cover_name)).
Defined.

(** A GET on the delete URL of Dune. *)
Lemma safe_methods_read_only_witness :
  @dispatch_request ascii_runtime (route_delete_book 1) get dune_world =
    ((405, error_page), dune_world).
Proof.
  exact (proj2 (@safe_methods_read_only ascii_runtime (route_delete_book 1)
                  get dune_world eq_refl) 1%N eq_refl).
Defined.

(** A create that fails on its year is answered 500 and adds no row. *)
Lemma table_changes_only_on_redirect_witness :
  (@dispatch_request ascii_runtime route_add_book
     (post undated_form (upload "dune.jpg")) dune_world).1.1 = 500 /\
  table (@dispatch_request ascii_runtime route_add_book
           (post undated_form (upload "dune.jpg")) dune_world).2 =
  table dune_world.
Proof.
  split; [reflexivity|].
  apply (@table_changes_only_on_redirect ascii_runtime).
  vm_compute. discriminate.
Defined.

(** Book 7 is asked for, and there is only Dune. *)
Lemma unknown_book_404_page_witness :
  @dispatch_request ascii_runtime (route_book_detail 7) get dune_world =
    ((404, view_page (render_template "404.html" None)), dune_world).
Proof.
  exact (@unknown_book_404_page ascii_runtime (route_book_detail 7) get
           dune_world 7%N (or_introl eq_refl) eq_refl eq_refl eq_refl).
Defined.

(** The id 2^63 matches the URL rule and cannot be bound to the query:
    the answer is a 500, not the 404 page. *)
Example unbindable_id_500 :
  @dispatch_request ascii_runtime
    (route_book_detail 9223372036854775808) get dune_world =
    ((500, error_page), dune_world).
Proof. vm_compute; reflexivity. Qed.

(** A script with a second, allowed extension. *)
Lemma allowed_file_last_extension_witness :
  @allowed_file ascii_runtime (str "shell.php.PNG") = true /\
  @allowed_file ascii_runtime (str "PNG") = false.
Proof.
  exact (@allowed_file_last_extension ascii_runtime (str "shell.php")
           (str "PNG") eq_refl).
Defined.

Lemma secure_filename_clean_witness :
  @secure_filename ascii_runtime (str "cover-2.final.jpg") =
  str "cover-2.final.jpg".
Proof.
  exact (@secure_filename_clean ascii_runtime (str "cover-2.final.jpg")
           eq_refl eq_refl).
Defined.

(** After three requests Emma is stored under id 2. *)
Lemma run_ids_bounded_witness :
  id (set_id (Some 2) emma) = Some 2 /\
  1 <= 2 <= Z.of_nat (length two_created_one_deleted).
Proof.
  apply (@run_ids_bounded ascii_runtime two_created_one_deleted 2
           (set_id (Some 2) emma)).
  vm_compute. reflexivity.
Defined.
